(** * GitHub-Documentation-Improved: repository traversal and section analysis

    A shallow embedding of [GithubClientBase.py], [GithubClientMCP.py],
    [GithubClientDirect.py] and [SectionAnalyzer.py], and the properties of
    the specification checked against it.

    Conventions of the embedding:
    - a Python [str] is a [string]; [s.endswith(t)], [t in s], [os.path.*]
      are the functions of [PyStr];
    - a Python [dict] is an insertion-ordered association list ([Py.dict]),
      updated by [Py.set]; a Python [set] of strings is a [gset];
    - a call that may raise returns a [Py.result]; [try ... except Exception]
      is [Py.try_except];
    - [None]-able arguments are [option]s, and Python truthiness is spelled
      out ([Py.truthy_str], [Py.truthy_list]). *)

From Stdlib Require Import ZArith Lia Ascii String List Permutation.
From stdpp Require Import base gmap strings list pretty.

Local Open Scope Z_scope.

(** ** Python string operations *)

Module PyStr.

(** [s.startswith(pre)] *)
Fixpoint startswith (s pre : string) {struct pre} : bool :=
  match pre, s with
  | EmptyString, _ => true
  | String a pre', String b s' => Ascii.eqb a b && startswith s' pre'
  | String _ _, EmptyString => false
  end.

(** [s.endswith(suf)]: [s] is [suf], or the tail of [s] ends with [suf]. *)
Fixpoint endswith (s suf : string) : bool :=
  String.eqb s suf ||
  match s with
  | EmptyString => false
  | String _ s' => endswith s' suf
  end.

(** [pat in s]: [pat] occurs in [s] as a contiguous substring. *)
Fixpoint contains (s pat : string) : bool :=
  startswith s pat ||
  match s with
  | EmptyString => false
  | String _ s' => contains s' pat
  end.

(** Slices [s[n:]] and [s[:n]] for [0 <= n]. *)
Fixpoint drop (n : nat) (s : string) : string :=
  match n, s with
  | O, _ => s
  | S n', String _ s' => drop n' s'
  | S _, EmptyString => EmptyString
  end.

Fixpoint take (n : nat) (s : string) : string :=
  match n, s with
  | O, _ => EmptyString
  | S n', String a s' => String a (take n' s')
  | S _, EmptyString => EmptyString
  end.

(** [s.rfind(c)] for a one-character [c]: the highest index of [c] in [s],
    [-1] when [c] does not occur. [rfind_from] scans left to right and
    remembers the last hit. *)
Fixpoint rfind_from (s : string) (c : ascii) (i last : Z) : Z :=
  match s with
  | EmptyString => last
  | String a s' => rfind_from s' c (i + 1) (if Ascii.eqb a c then i else last)
  end.

Definition rfind (s : string) (c : ascii) : Z := rfind_from s c 0 (-1).

(** [s.rstrip(c)]: drop the trailing run of [c]. *)
Fixpoint rstrip (s : string) (c : ascii) : string :=
  match s with
  | EmptyString => EmptyString
  | String a s' =>
      match rstrip s' c with
      | EmptyString => if Ascii.eqb a c then EmptyString else String a EmptyString
      | r => String a r
      end
  end.

(** [s == c * len(s)] *)
Fixpoint all_char (s : string) (c : ascii) : bool :=
  match s with
  | EmptyString => true
  | String a s' => Ascii.eqb a c && all_char s' c
  end.

Definition sep : ascii := "/"%char.
Definition extsep : ascii := "."%char.

(** [posixpath.basename]:
    [i = p.rfind('/') + 1; return p[i:]]. *)
Definition basename (p : string) : string :=
  let i := rfind p sep + 1 in
  drop (Z.to_nat i) p.

(** [posixpath.dirname]:
    [i = p.rfind('/') + 1; head = p[:i];
     if head and head != '/'*len(head): head = head.rstrip('/');
     return head]. *)
Definition dirname (p : string) : string :=
  let i := rfind p sep + 1 in
  let head := take (Z.to_nat i) p in
  if negb (String.eqb head "") && negb (all_char head sep)
  then rstrip head sep
  else head.

(** The loop of [genericpath._splitext] that skips leading dots: does the
    slice [p[filenameIndex:dotIndex]] hold a character that is not a dot? *)
Fixpoint has_non_dot (s : string) : bool :=
  match s with
  | EmptyString => false
  | String a s' => negb (Ascii.eqb a extsep) || has_non_dot s'
  end.

(** [posixpath.splitext]: split at the last dot of the last path component,
    unless that component consists of leading dots only up to it. *)
Definition splitext (p : string) : string * string :=
  let sepIndex := rfind p sep in
  let dotIndex := rfind p extsep in
  if (dotIndex >? sepIndex) &&
     has_non_dot (take (Z.to_nat (dotIndex - (sepIndex + 1)))
                       (drop (Z.to_nat (sepIndex + 1)) p))
  then (take (Z.to_nat dotIndex) p, drop (Z.to_nat dotIndex) p)
  else (p, EmptyString).

(** [suf] is a suffix of [s]; [pat] occurs in [s] as a substring. *)
Definition suffix_of (suf s : string) : Prop := exists p, s = p +:+ suf.

Definition occurs_in (pat s : string) : Prop := exists a b, s = a +:+ pat +:+ b.

End PyStr.

(** ** Python values: exceptions, truthiness, dictionaries *)

Module Py.

(** Instances of (subclasses of) [Exception], the ones the sources raise or
    let through. [except Exception] catches every one of them. *)
Inductive exn : Type :=
| Exception (msg : string)
| ValueError (msg : string)
| AttributeError (msg : string)
| UnicodeDecodeError (msg : string)
| GithubException (msg : string).

(** The outcome of a call: a value, or a raised exception. *)
Inductive result (A : Type) : Type :=
| Ok (a : A)
| Raise (e : exn).
Global Arguments Ok {A} a.
Global Arguments Raise {A} e.

Definition bind {A B} (m : result A) (k : A -> result B) : result B :=
  match m with
  | Ok a => k a
  | Raise e => Raise e
  end.

(** [try: m  except Exception as e: h e] *)
Definition try_except {A} (m : result A) (h : exn -> result A) : result A :=
  match m with
  | Ok a => Ok a
  | Raise e => h e
  end.

Definition raises {A} (m : result A) : Prop := exists e, m = Raise e.

(** The value a call returned, if it returned. *)
Definition returned {A} (m : result A) : option A :=
  match m with
  | Ok a => Some a
  | Raise _ => None
  end.

(** Truthiness of an optional string ([None] and [""] are falsy) and of an
    optional list ([None] and [[]] are falsy). *)
Definition truthy_str (s : option string) : bool :=
  match s with
  | Some s => negb (String.eqb s "")
  | None => false
  end.

Definition truthy_list {A} (l : option (list A)) : bool :=
  match l with
  | Some (_ :: _) => true
  | _ => false
  end.

(** A [dict] with [str] keys: keys are unique and iteration follows
    insertion order. *)
Definition dict (V : Type) : Type := list (string * V).

Definition keys {V} (d : dict V) : list string := d.*1.

Fixpoint get {V} (d : dict V) (k : string) : option V :=
  match d with
  | [] => None
  | (k', v) :: d' => if String.eqb k' k then Some v else get d' k
  end.

(** [k in d] *)
Definition mem {V} (d : dict V) (k : string) : bool :=
  match get d k with Some _ => true | None => false end.

(** [d[k] = v]: overwrite in place when [k] is present, append otherwise. *)
Fixpoint set {V} (k : string) (v : V) (d : dict V) : dict V :=
  match d with
  | [] => [(k, v)]
  | (k', v') :: d' =>
      if String.eqb k' k then (k, v) :: d' else (k', v') :: set k v d'
  end.

(** [{k: v for ...}] and [dict(pairs)]: insert the pairs from left to right. *)
Definition of_pairs {V} (l : list (string * V)) : dict V :=
  fold_left (fun d kv => set kv.1 kv.2 d) l [].

Definition wf {V} (d : dict V) : Prop := NoDup (keys d).

End Py.

(** ** The persistent cache

  [repo_cache.RepoCache] is used by the clients and by the analyzer but
  its source is not part of the files at hand, so it enters as an
  interface over an abstract store [C]: the six methods the callers use,
  reads being functions of the store and writes returning the new store. *)

Module Cache.

(** The structure record, a [dict] read with [.get("files", [])] and
    [.get("sections", {})]; [st_rest] stands for its other entries. *)
Record structure : Type := {
  st_sections : option (Py.dict (list string));
  st_files : option (list string);
  st_section_method : option string;
  st_rest : Py.dict (option string)
}.

(** The metadata record, a [dict] in which the analyzer writes three keys. *)
Record metadata : Type := {
  md_section_count : option nat;
  md_section_method : option string;
  md_sections : option (Py.dict nat);
  md_rest : Py.dict string
}.

(** [{}] *)
Definition empty_structure : structure :=
  {| st_sections := None; st_files := None; st_section_method := None;
     st_rest := [] |}.
Definition empty_metadata : metadata :=
  {| md_section_count := None; md_section_method := None;
     md_sections := None; md_rest := [] |}.

(** Truthiness of the record: a [dict] with at least one key. *)
Definition structure_truthy (s : structure) : bool :=
  match st_sections s, st_files s, st_section_method s, st_rest s with
  | None, None, None, [] => false
  | _, _, _, _ => true
  end.
Definition metadata_truthy (m : metadata) : bool :=
  match md_section_count m, md_section_method m, md_sections m, md_rest m with
  | None, None, None, [] => false
  | _, _, _, _ => true
  end.

Class RepoCache (C : Type) : Type := {
  get_repo_files : C -> string -> string -> option string -> option (Py.dict string);
  cache_repo_files : C -> string -> string -> Py.dict string -> option string -> C;
  get_repo_structure : C -> string -> string -> option string -> option structure;
  update_structure_cache : C -> string -> string -> Py.dict string -> option string -> C;
  get_repo_metadata : C -> string -> string -> option string -> option metadata;
  save_repo_metadata : C -> string -> string -> metadata -> option string -> C
}.

End Cache.

(** ** What the remote side answers *)

Module Remote.

(** An object of an MCP [get_file_contents] answer, read with [.get]. *)
Record mcp_entry : Type := {
  e_name : option string;
  e_path : option string;
  e_type : option string;
  e_size : option Z;
  e_content : option string;
  e_encoding : option string
}.

(** The answer is a list for a directory and one object for a file. *)
Inductive mcp_contents : Type :=
| McpList (l : list mcp_entry)
| McpObject (o : mcp_entry).

Record repo_data : Type := { rd_default_branch : option string }.

Record repo_search : Type := {
  rs_total_count : option Z;
  rs_items : option (list repo_data)
}.

Record code_item : Type := { ci_path : option string }.

Record code_search : Type := {
  cs_items : option (list code_item);
  cs_total_count : option Z
}.

(** [GithubClientMCP.call_mcp_tool(tool_name, params)], one field per tool
    name the client calls: the external command is run and its output
    parsed; a non-zero exit status, a timeout or unparsable output raise
    [Exception]. An answer that is not of the tool's shape makes the caller
    raise at its first [.get]; that case is part of [Raise] here. *)
Record McpServer : Type := {
  tool_get_file_contents :
    string -> string -> string -> option string -> Py.result mcp_contents;
  tool_search_repositories : string -> Py.result repo_search;
  tool_search_code : string -> Z -> Z -> Py.result code_search
}.

(** PyGithub's [ContentFile], [Repository] and [Github]. *)
Record content_file : Type := {
  cf_name : string;
  cf_path : string;
  cf_type : string;
  cf_size : Z;
  cf_encoding : option string;
  cf_content : string
}.

Inductive gh_contents : Type :=
| GhList (l : list content_file)
| GhFile (f : content_file).

Record Repository : Type := {
  r_name : string;
  r_default_branch : string;
  r_get_contents : string -> option string -> Py.result gh_contents
}.

Record Github : Type := { get_repo : string -> Py.result Repository }.

(** The environment of a run: what the command named by
    [claude_executable] answers, the API handle [Github(token)],
    [os.getenv('GITHUB_TOKEN')], and
    [base64.b64decode(s).decode('utf-8')], which raises on bytes that are
    no base64 or no UTF-8. The remote side answers a request the same way
    throughout one run. *)
Record World : Type := {
  run_mcp : string -> McpServer;
  github_api : string -> Github;
  getenv_GITHUB_TOKEN : option string;
  b64decode_utf8 : string -> Py.result string
}.

(** One entry of a listing as both clients build it: the keys ["name"],
    ["path"], ["type"] (["file"] or ["dir"]) and ["size"]. *)
Inductive item_type : Type := TFile | TDir.

Record item : Type := {
  item_name : string;
  item_path : string;
  item_kind : item_type;
  item_size : Z
}.

End Remote.

(** ** [GithubClientBase.py] *)

Module GithubClientBase.
Import Remote Cache.

(** An attribute of an object as [hasattr] and [callable] see it: a method,
    or a value that cannot be called. *)
Inductive attribute (F : Type) : Type :=
| Method (f : F)
| Data.
Arguments Method {F} f.
Arguments Data {F}.

(** A client object: the state [__init__] sets and the methods its class
    provides. The two abstract methods and [_get_default_branch] are the
    slots a subclass fills; [search_references] is an attribute only of the
    classes that define it. *)
Record client : Type := {
  use_cache : bool;
  _list_repository_files :
    string -> string -> string -> option string -> Py.result (list item);
  _get_file_content :
    string -> string -> string -> option string -> Py.result string;
  _get_default_branch : string -> string -> Py.result string;
  search_references :
    option (attribute (string -> string -> string -> Py.result (gset (option string))))
}.

(** [list_repository_files] and [get_file_content]: log and re-raise. *)
Definition list_repository_files (self : client)
    (owner repo path : string) (branch : option string) : Py.result (list item) :=
  Py.try_except (_list_repository_files self owner repo path branch)
                (fun e => Py.Raise e).

Definition get_file_content (self : client)
    (owner repo path : string) (branch : option string) : Py.result string :=
  Py.try_except (_get_file_content self owner repo path branch)
                (fun e => Py.Raise e).

(** [GithubClientBase._get_default_branch], what a subclass inherits when
    it does not override the method. *)
Definition base_get_default_branch (owner repo : string) : Py.result string :=
  Py.Ok "main".

(** [hasattr(self, 'search_references') and
     callable(getattr(self, 'search_references'))] *)
Definition has_code_search (self : client) : bool :=
  match search_references self with
  | Some (Method _) => true
  | Some Data => false
  | None => false
  end.

(** [setattr(self, 'search_references', value)] on a built object. *)
Definition set_search_references (self : client)
    (value : attribute (string -> string -> string ->
                        Py.result (gset (option string)))) : client :=
  {| use_cache := use_cache self;
     _list_repository_files := _list_repository_files self;
     _get_file_content := _get_file_content self;
     _get_default_branch := _get_default_branch self;
     search_references := Some value |}.

Definition default_ignore_dirs : list string :=
  [".git"; "node_modules"; "__pycache__"; "dist"; "build"].

Definition binary_extensions : list string :=
  [".png"; ".jpg"; ".jpeg"; ".gif"; ".bmp"; ".pdf"; ".zip";
   ".gz"; ".tar"; ".class"; ".exe"; ".dll"; ".so"].

(** [any(path.endswith(ext) for ext in exts)] *)
Definition any_endswith (path : string) (exts : list string) : bool :=
  existsb (PyStr.endswith path) exts.

(** [any(pattern in path for pattern in patterns)] *)
Definition any_in (path : string) (patterns : list string) : bool :=
  existsb (PyStr.contains path) patterns.

(** The helper [should_include_file] of [get_repository_structure], with
    the [extensions] and [include_patterns] it closes over. *)
Definition should_include_file
    (extensions include_patterns : option (list string)) (path : string) : bool :=
  let skip_binary :=
    if any_endswith path binary_extensions then false else true in
  if Py.truthy_list extensions then
    if negb (any_endswith path (default [] extensions)) then
      if Py.truthy_list include_patterns
         && any_in path (default [] include_patterns)
      then true
      else false
    else skip_binary
  else skip_binary.

(** The batches [all_file_paths[i:i+size]] for [i] in
    [range(0, len(all_file_paths), size)], [size] positive. *)
Fixpoint batches (fuel size : nat) (paths : list string) : list (list string) :=
  match fuel, paths with
  | O, _ => []
  | S _, [] => []
  | S fuel', _ :: _ => take size paths :: batches fuel' size (drop size paths)
  end.

Section GetRepositoryStructure.
Context {C : Type} {cache_ops : RepoCache C}.
Context (self : client).

(** The order in which [concurrent.futures.as_completed] hands back the
    futures of a batch; the scheduler picks it. *)
Context (as_completed : list string -> list string).

Context (owner repo : string).

(** The state of the traversal: [visited_dirs] and [all_file_paths]. *)
Definition walk : Type := gset string * list string.

(** The nested [collect_file_paths(path)]. The remote side decides how deep
    the tree is, so the recursion is bounded by [fuel]: [None] when it runs
    out. An exception of the listing ends the directory at hand, with what
    was collected so far kept. *)
Fixpoint collect_file_paths (fuel : nat) (branch : string)
    (ignore_dirs : list string) (max_file_size : Z)
    (include_patterns extensions : option (list string))
    (path : string) (st : walk) : option walk :=
  match fuel with
  | O => None
  | S fuel' =>
      if decide (path ∈ st.1) then Some st
      else
        let st := ({[path]} ∪ st.1, st.2) in
        match list_repository_files self owner repo path (Some branch) with
        | Py.Raise _ => Some st
        | Py.Ok items =>
            (fix each (items : list item) (st : walk) {struct items} : option walk :=
               match items with
               | [] => Some st
               | it :: rest =>
                   if any_in (item_path it) ignore_dirs then each rest st
                   else
                     match item_kind it with
                     | TDir =>
                         match collect_file_paths fuel' branch ignore_dirs
                                 max_file_size include_patterns extensions
                                 (item_path it) st with
                         | None => None
                         | Some st' => each rest st'
                         end
                     | TFile =>
                         if item_size it >? max_file_size then each rest st
                         else if negb (should_include_file extensions
                                         include_patterns (item_path it))
                         then each rest st
                         else each rest (st.1, st.2 ++ [item_path it])
                     end
               end) items st
        end
  end.

(** One batch: every future is asked for its result in completion order;
    a result is stored under its path, an exception is logged and dropped. *)
Definition fetch_batch (branch : string) (batch : list string)
    (result : Py.dict string) : Py.dict string :=
  fold_left (fun result path =>
               match get_file_content self owner repo path (Some branch) with
               | Py.Ok content => Py.set path content result
               | Py.Raise _ => result
               end)
            (as_completed batch) result.

(** What the fetch loop leaves under [path]: the fetched content when the
    path was among those to fetch and its fetch returned, and what was
    there before otherwise. *)
Definition outcome (branch path : string) (listed : Prop) `{!Decision listed}
    (before : option string) : option string :=
  match get_file_content self owner repo path (Some branch) with
  | Py.Ok content => if decide listed then Some content else before
  | Py.Raise _ => before
  end.

(** The [for i in range(0, len(all_file_paths), batch_size)] loop.
    [range] raises on a zero step and is empty on a negative one;
    [ThreadPoolExecutor] raises on a worker count that is not positive. *)
Definition fetch_all (branch : string) (all_file_paths : list string)
    (batch_size max_workers : Z) : Py.result (Py.dict string) :=
  if batch_size =? 0 then
    Py.Raise (Py.ValueError "range() arg 3 must not be zero")
  else if batch_size <? 0 then Py.Ok []
  else
    match batches (length all_file_paths) (Z.to_nat batch_size) all_file_paths with
    | [] => Py.Ok []
    | bs =>
        if max_workers <=? 0 then
          Py.Raise (Py.ValueError "max_workers must be greater than 0")
        else Py.Ok (fold_left (fun result batch => fetch_batch branch batch result)
                              bs [])
    end.

(** The cache check at the head of [get_repository_structure]: the cached
    file map when it is there and not empty. *)
Definition cached_files (branch : option string) (force_refresh : bool) (c : C)
    : option (Py.dict string) :=
  if use_cache self && negb force_refresh then
    match get_repo_files c owner repo branch with
    | Some ((_ :: _) as files) => Some files
    | _ => None
    end
  else None.

(** [if branch is None: branch = self._get_default_branch(owner, repo)] *)
Definition resolve_branch (branch : option string) : Py.result string :=
  match branch with
  | None => _get_default_branch self owner repo
  | Some b => Py.Ok b
  end.

(** [if self.use_cache and result: self.cache.cache_repo_files(...)] *)
Definition cache_result (branch : string) (result : Py.dict string) (c : C) : C :=
  match result with
  | [] => c
  | _ :: _ =>
      if use_cache self
      then cache_repo_files c owner repo result (Some branch)
      else c
  end.

Definition get_repository_structure (fuel : nat) (branch : option string)
    (ignore_dirs : option (list string)) (max_file_size : Z)
    (include_patterns extensions : option (list string))
    (force_refresh : bool) (batch_size max_workers : Z) (c : C)
    : option (Py.result (Py.dict string) * C) :=
  match cached_files branch force_refresh c with
  | Some files => Some (Py.Ok files, c)
  | None =>
      match resolve_branch branch with
      | Py.Raise e => Some (Py.Raise e, c)
      | Py.Ok branch =>
          let ignore_dirs := default default_ignore_dirs ignore_dirs in
          match collect_file_paths fuel branch ignore_dirs max_file_size
                  include_patterns extensions EmptyString (∅, []) with
          | None => None
          | Some (_, []) => Some (Py.Ok [], c)
          | Some (_, all_file_paths) =>
              match fetch_all branch all_file_paths batch_size max_workers with
              | Py.Raise e => Some (Py.Raise e, c)
              | Py.Ok result => Some (Py.Ok result, cache_result branch result c)
              end
          end
      end
  end.

End GetRepositoryStructure.

End GithubClientBase.

(** ** [GithubClientMCP.py] *)

Module GithubClientMCP.
Import Remote.

(** [isinstance(contents, list)], else [[contents]] *)
Definition as_list (contents : mcp_contents) : list mcp_entry :=
  match contents with
  | McpList l => l
  | McpObject o => [o]
  end.

Definition _list_repository_files (server : McpServer)
    (owner repo path : string) (branch : option string) : Py.result (list item) :=
  Py.bind (tool_get_file_contents server owner repo path branch) (fun contents =>
  Py.Ok (map (fun content =>
               {| item_name := default EmptyString (e_name content);
                  item_path := default EmptyString (e_path content);
                  item_kind := if decide (e_type content = Some "file")
                               then TFile else TDir;
                  item_size := default 0 (e_size content) |})
             (as_list contents))).

Definition _get_file_content (w : World) (server : McpServer)
    (owner repo path : string) (branch : option string) : Py.result string :=
  Py.bind (tool_get_file_contents server owner repo path branch) (fun content =>
  match content with
  | McpList _ => Py.Raise (Py.AttributeError "'list' object has no attribute 'get'")
  | McpObject o =>
      match e_content o with
      | Some c =>
          if decide (e_encoding o = Some "base64")
          then b64decode_utf8 w c
          else Py.Ok c
      | None => Py.Ok EmptyString
      end
  end).

(** The body of the [try] of [_get_default_branch]: [Some branch] when it
    returns from inside, [None] when it falls through to the fallback. *)
Definition default_branch_lookup (server : McpServer)
    (owner repo : string) : Py.result (option string) :=
  Py.bind (tool_search_repositories server ("repo:" +:+ owner +:+ "/" +:+ repo))
    (fun repo_info =>
  if default 0 (rs_total_count repo_info) >? 0 then
    match default [] (rs_items repo_info) with
    | first :: _ =>
        if Py.truthy_str (rd_default_branch first)
        then Py.Ok (rd_default_branch first)
        else Py.Ok None
    | [] => Py.Ok None
    end
  else Py.Ok None).

Definition _get_default_branch (server : McpServer)
    (owner repo : string) : Py.result string :=
  Py.bind (Py.try_except (default_branch_lookup server owner repo)
                         (fun _ => Py.Ok None))
    (fun found =>
  match found with
  | Some branch => Py.Ok branch
  | None => Py.Ok "main"
  end).

(** [results[:n]] *)
Definition slice_to {A} (n : Z) (l : list A) : list A :=
  if n <? 0 then take (length l - Z.to_nat (- n)) l else take (Z.to_nat n) l.

(** The [while len(results) < max_results] loop of [search_code]. Every
    round that goes on has added an item, so [max_results] rounds are
    enough; [fuel] counts them. *)
Fixpoint search_code_loop (fuel : nat) (server : McpServer) (query : string)
    (page per_page max_results : Z) (results : list code_item)
    : Py.result (list code_item) :=
  if Z.of_nat (length results) <? max_results then
    match fuel with
    | O => Py.Ok results
    | S fuel' =>
        Py.bind (tool_search_code server query page per_page) (fun response =>
        match default [] (cs_items response) with
        | [] => Py.Ok results
        | items =>
            let results := results ++ items in
            let total_count := default 0 (cs_total_count response) in
            if (Z.of_nat (length results) >=? total_count)
               || (Z.of_nat (length results) >=? max_results)
            then Py.Ok results
            else search_code_loop fuel' server query (page + 1) per_page
                                  max_results results
        end)
    end
  else Py.Ok results.

Definition default_max_results : Z := 100.

Definition search_code (server : McpServer) (owner repo query : string)
    (max_results : Z) : Py.result (list code_item) :=
  Py.try_except
    (let tag := "repo:" +:+ owner +:+ "/" +:+ repo in
     let query :=
       if negb (PyStr.contains query tag) then tag +:+ " " +:+ query else query in
     let per_page := Z.min 100 max_results in
     Py.bind (search_code_loop (Z.to_nat max_results) server query 1 per_page
                               max_results [])
       (fun results => Py.Ok (slice_to max_results results)))
    (fun _ => Py.Ok []).

(** The double-quote character that wraps a search phrase. *)
Definition dquote : string := String (Ascii.ascii_of_nat 34) EmptyString.

Definition quoted (s : string) : string := dquote +:+ s +:+ dquote.

(** The [queries] list of [search_references]. *)
Definition backlink_queries (filepath : string) : list string :=
  let filename := PyStr.basename filepath in
  let '(name, ext) := PyStr.splitext filename in
  let queries := [quoted filename] in
  if String.eqb ext ".py" then
    let module_name :=
      if String.eqb name "__init__" then
        let dir_name := PyStr.basename (PyStr.dirname filepath) in
        if Py.truthy_str (Some dir_name) then dir_name else name
      else name in
    queries ++ [quoted ("import " +:+ module_name);
                quoted ("from " +:+ module_name)]
  else queries.

(** The inner [for item in search_results] loop: add every path that is
    not the file itself ([item.get("path")] is [None] for an item with no
    path). *)
Definition add_references (filepath : string) (search_results : list code_item)
    (references : gset (option string)) : gset (option string) :=
  fold_left (fun refs item =>
               if decide (ci_path item = Some filepath) then refs
               else {[ci_path item]} ∪ refs)
            search_results references.

Definition search_references (server : McpServer)
    (owner repo filepath : string) : Py.result (gset (option string)) :=
  Py.try_except
    (fold_left (fun acc query =>
                  Py.bind acc (fun references =>
                  Py.bind (search_code server owner repo query default_max_results)
                    (fun search_results =>
                  Py.Ok (add_references filepath search_results references))))
               (backlink_queries filepath) (Py.Ok ∅))
    (fun _ => Py.Ok ∅).

(** [GithubClientMCP(use_cache, claude_executable)]: the object that
    [__init__] builds; the class defines [search_references]. *)
Definition __init__ (w : World) (use_cache : bool)
    (claude_executable : option string) : GithubClientBase.client :=
  let claude_executable :=
    if Py.truthy_str claude_executable
    then default EmptyString claude_executable
    else "claude" in
  let server := run_mcp w claude_executable in
  {| GithubClientBase.use_cache := use_cache;
     GithubClientBase._list_repository_files := _list_repository_files server;
     GithubClientBase._get_file_content := _get_file_content w server;
     GithubClientBase._get_default_branch := _get_default_branch server;
     GithubClientBase.search_references :=
       Some (GithubClientBase.Method (search_references server)) |}.

End GithubClientMCP.

(** ** [GithubClientDirect.py] *)

Module GithubClientDirect.
Import Remote.

Definition as_list (contents : gh_contents) : list content_file :=
  match contents with
  | GhList l => l
  | GhFile f => [f]
  end.

Definition _list_repository_files (github : Github)
    (owner repo path : string) (branch : option string) : Py.result (list item) :=
  Py.bind (get_repo github (owner +:+ "/" +:+ repo)) (fun repository =>
  Py.bind (r_get_contents repository path branch) (fun contents =>
  Py.Ok (map (fun content =>
               {| item_name := cf_name content;
                  item_path := cf_path content;
                  item_kind := if String.eqb (cf_type content) "file"
                               then TFile else TDir;
                  item_size := cf_size content |})
             (as_list contents)))).

Definition _get_file_content (w : World) (github : Github)
    (owner repo path : string) (branch : option string) : Py.result string :=
  Py.bind (get_repo github (owner +:+ "/" +:+ repo)) (fun repository =>
  Py.bind (r_get_contents repository path branch) (fun content =>
  match content with
  | GhList _ =>
      Py.Raise (Py.AttributeError "'list' object has no attribute 'encoding'")
  | GhFile f =>
      if decide (cf_encoding f = Some "base64")
      then b64decode_utf8 w (cf_content f)
      else Py.Ok (cf_content f)
  end)).

Definition _get_default_branch (github : Github)
    (owner repo : string) : Py.result string :=
  Py.bind (get_repo github (owner +:+ "/" +:+ repo)) (fun repository =>
  Py.Ok (r_default_branch repository)).

(** [GithubClientDirect(github_token, use_cache)]: raises [ValueError]
    without a token; the class defines no [search_references]. *)
Definition __init__ (w : World) (github_token : option string)
    (use_cache : bool) : Py.result GithubClientBase.client :=
  let token :=
    if Py.truthy_str github_token then github_token else getenv_GITHUB_TOKEN w in
  if negb (Py.truthy_str token) then
    Py.Raise (Py.ValueError
      "GitHub token is required. Set it in .env file or pass directly.")
  else
    let github := github_api w (default EmptyString token) in
    Py.Ok {| GithubClientBase.use_cache := use_cache;
             GithubClientBase._list_repository_files := _list_repository_files github;
             GithubClientBase._get_file_content := _get_file_content w github;
             GithubClientBase._get_default_branch := _get_default_branch github;
             GithubClientBase.search_references := None |}.

End GithubClientDirect.

(** ** [SectionAnalyzer.py] *)

Module SectionAnalyzer.
Import Cache.

Inductive AnalysisMethod : Type :=
| STRUCTURAL
| DEPENDENCY
| HYBRID.

(** [method.name] *)
Definition name (method : AnalysisMethod) : string :=
  match method with
  | STRUCTURAL => "STRUCTURAL"
  | DEPENDENCY => "DEPENDENCY"
  | HYBRID => "HYBRID"
  end.

(** A section [(section_name, {file_path: content})]. *)
Definition section : Type := string * Py.dict string.

(** The methods of [SectionAnalyzer] that [analyze_repository] calls and
    whose bodies are not in the file at hand. The enhanced ones reach the
    remote side through the client; here they are functions of their
    arguments. *)
Record Strategies : Type := {
  structural_analysis : Py.dict string -> Z -> list section;
  dependency_analysis : Py.dict string -> Z -> list section;
  enhanced_dependency_analysis :
    Py.dict string -> string -> string -> Z -> option string -> list section;
  hybrid_analysis : Py.dict string -> Z -> list section;
  _extract_enhanced_dependencies :
    Py.dict string -> string -> string -> Py.dict (gset string);
  _group_by_dependencies :
    Py.dict string -> Py.dict (gset string) -> Z -> list section;
  _merge_small_sections : list section -> Z -> list section
}.

(** The record of which of these methods a run has called, in call order. *)
Inductive call : Type :=
| CallStructural
| CallDependency
| CallEnhancedDependency
| CallHybrid
| CallExtractEnhancedDependencies
| CallGroupByDependencies
| CallMergeSmallSections.

(** The calls that partition the files (all but the merge pass). *)
Definition is_partition_call (k : call) : bool :=
  match k with
  | CallMergeSmallSections => false
  | _ => true
  end.

(** The analyzer object ([claude_analyzer] plays no part in
    [analyze_repository] and is left out). *)
Record analyzer : Type := {
  github_client : option GithubClientBase.client;
  use_cache : bool;
  has_code_search : bool
}.

(** [SectionAnalyzer.__init__]: every client object has the method
    [has_code_search] of the base class, so the [hasattr] test holds
    whenever a client is given. *)
Definition __init__ (github_client : option GithubClientBase.client)
    (use_cache : bool) : analyzer :=
  {| github_client := github_client;
     use_cache := use_cache;
     has_code_search :=
       match github_client with
       | Some client => GithubClientBase.has_code_search client
       | None => false
       end |}.

(** What a run reads and changes: the cache, and the call record. *)
Record state (C : Type) : Type := {
  cache : C;
  calls : list call
}.
Arguments cache {C} s.
Arguments calls {C} s.

(** [set(repo_files.keys()) == set(cached_structure.get("files", []))] *)
Definition same_file_set (repo_files : Py.dict string) (s : structure) : bool :=
  bool_decide ((list_to_set (Py.keys repo_files) : gset string)
               = list_to_set (default [] (st_files s))).

(** [{path: repo_files[path] for path in file_paths if path in repo_files}] *)
Definition section_files_of (repo_files : Py.dict string)
    (file_paths : list string) : Py.dict string :=
  Py.of_pairs
    (omap (fun path => (fun content => (path, content)) <$> Py.get repo_files path)
          file_paths).

(** The loop over [cached_sections.items()]. *)
Definition cached_sections_of (repo_files : Py.dict string)
    (cached_sections : Py.dict (list string)) : list section :=
  fold_left (fun sections '(section_name, file_paths) =>
               match section_files_of repo_files file_paths with
               | [] => sections
               | section_files => sections ++ [(section_name, section_files)]
               end)
            cached_sections [].

Definition uses_structure_cache (method : AnalysisMethod) : bool :=
  match method with
  | DEPENDENCY | HYBRID => true
  | STRUCTURAL => false
  end.

(** [{src: {tgt for tgt in deps if tgt in files}
      for src, deps in dependencies.items() if src in files}] *)
Definition section_deps_of (dependencies : Py.dict (gset string))
    (files : Py.dict string) : Py.dict (gset string) :=
  Py.of_pairs
    (omap (fun '(src, deps) =>
             if Py.mem files src
             then Some (src, filter (fun tgt => Py.mem files tgt = true) deps)
             else None)
          dependencies).

Section AnalyzeRepository.
Context {C : Type} {cache_ops : RepoCache C}.
Context (P : Strategies) (self : analyzer).

(** The first block of [analyze_repository]: [Some sections] when it
    returns the cached sections, [None] when the run goes on. *)
Definition cached_structure_sections (repo_files : Py.dict string)
    (method : AnalysisMethod) (owner repo branch : option string) (c : C)
    : option (list section) :=
  if use_cache self && Py.truthy_str owner && Py.truthy_str repo
     && uses_structure_cache method then
    match get_repo_structure c (default EmptyString owner)
                             (default EmptyString repo) branch with
    | Some cached_structure =>
        if structure_truthy cached_structure then
          if same_file_set repo_files cached_structure then
            match default [] (st_sections cached_structure) with
            | [] => None
            | cached_sections =>
                match cached_sections_of repo_files cached_sections with
                | [] => None
                | sections => Some sections
                end
            end
          else None
        else None
    | None => None
    end
  else None.

(** The loop of the enhanced hybrid branch over the structural sections. *)
Definition refine_large_sections (max_section_size : Z)
    (dependencies : Py.dict (gset string)) (structural_sections : list section)
    : list section * list call :=
  fold_left (fun '(sections, called) '(section_name, files) =>
               if Z.of_nat (length files) >? max_section_size then
                 let section_deps := section_deps_of dependencies files in
                 let subsections :=
                   _group_by_dependencies P files section_deps max_section_size in
                 (sections ++
                    map (fun '(subsection_name, subsection_files) =>
                           (section_name +:+ "/" +:+ subsection_name,
                            subsection_files))
                        subsections,
                  called ++ [CallGroupByDependencies])
               else (sections ++ [(section_name, files)], called))
            structural_sections ([], []).

(** The dispatch on [method] and on the capabilities. *)
Definition select_analysis (repo_files : Py.dict string)
    (method : AnalysisMethod) (max_section_size : Z)
    (owner repo branch : option string) : list section * list call :=
  let enhanced :=
    has_code_search self && Py.truthy_str owner && Py.truthy_str repo in
  let o := default EmptyString owner in
  let r := default EmptyString repo in
  match method with
  | DEPENDENCY =>
      if enhanced then
        (enhanced_dependency_analysis P repo_files o r max_section_size branch,
         [CallEnhancedDependency])
      else (dependency_analysis P repo_files max_section_size, [CallDependency])
  | HYBRID =>
      if enhanced then
        let structural_sections := structural_analysis P repo_files max_section_size in
        let dependencies := _extract_enhanced_dependencies P repo_files o r in
        let '(sections, called) :=
          refine_large_sections max_section_size dependencies structural_sections in
        (sections, [CallStructural; CallExtractEnhancedDependencies] ++ called)
      else (hybrid_analysis P repo_files max_section_size, [CallHybrid])
  | STRUCTURAL =>
      (structural_analysis P repo_files max_section_size, [CallStructural])
  end.

(** [cacheable_sections] *)
Definition cacheable_sections (sections : list section) : Py.dict (list string) :=
  fold_left (fun d '(section_name, files) => Py.set section_name (Py.keys files) d)
            sections [].

(** [structure_data], as the run builds it from the stored record. *)
Definition structure_data (sections : list section) (repo_files : Py.dict string)
    (method : AnalysisMethod) (owner repo : string) (branch : option string)
    (c : C) : structure :=
  let stored :=
    match get_repo_structure c owner repo branch with
    | Some s => if structure_truthy s then s else empty_structure
    | None => empty_structure
    end in
  {| st_sections := Some (cacheable_sections sections);
     st_files := Some (Py.keys repo_files);
     st_section_method := Some (name method);
     st_rest :=
       if Py.mem (st_rest stored) "owner" then st_rest stored
       else Py.set "branch" branch
              (Py.set "repo" (Some repo)
                 (Py.set "owner" (Some owner) (st_rest stored))) |}.

(** [{name: len(files) for name, files in sections}] *)
Definition section_sizes (sections : list section) : Py.dict nat :=
  Py.of_pairs (map (fun '(section_name, files) => (section_name, length files))
                   sections).

(** [metadata], the stored record (or [{}]) with the three keys written. *)
Definition metadata_of (sections : list section) (method : AnalysisMethod)
    (stored : option metadata) : metadata :=
  let metadata :=
    match stored with
    | Some m => if metadata_truthy m then m else empty_metadata
    | None => empty_metadata
    end in
  {| md_section_count := Some (length sections);
     md_section_method := Some (name method);
     md_sections := Some (section_sizes sections);
     md_rest := md_rest metadata |}.

(** The last block of [analyze_repository]. [structure_data] is built and
    then not handed to the cache: [update_structure_cache] gets
    [repo_files]. *)
Definition cache_sections (sections : list section) (repo_files : Py.dict string)
    (method : AnalysisMethod) (owner repo branch : option string) (c : C) : C :=
  if use_cache self && Py.truthy_str owner && Py.truthy_str repo then
    let o := default EmptyString owner in
    let r := default EmptyString repo in
    let structure_data := structure_data sections repo_files method o r branch c in
    let c := update_structure_cache c o r repo_files branch in
    let metadata := metadata_of sections method (get_repo_metadata c o r branch) in
    save_repo_metadata c o r metadata branch
  else c.

Definition analyze_repository (repo_files : Py.dict string)
    (method : AnalysisMethod) (max_section_size min_section_size : Z)
    (owner repo branch : option string) (st : state C) : list section * state C :=
  match cached_structure_sections repo_files method owner repo branch (cache st) with
  | Some sections => (sections, st)
  | None =>
      let '(sections, called) :=
        select_analysis repo_files method max_section_size owner repo branch in
      let '(sections, called) :=
        if min_section_size >? 1
        then (_merge_small_sections P sections min_section_size,
              called ++ [CallMergeSmallSections])
        else (sections, called) in
      (sections,
       {| cache := cache_sections sections repo_files method owner repo branch
                                  (cache st);
          calls := calls st ++ called |})
  end.

End AnalyzeRepository.

End SectionAnalyzer.

(** ** The parts modelled from the specification *)

Module SpecModel.
Import Cache SectionAnalyzer.

(** The number of files of a section. *)
Definition size (s : section) : nat := length s.2.

(** [small] folded into [target]: the target keeps its name and takes the
    files of [small] (a dict update). *)
Definition fold_into (small target : section) : section :=
  (target.1, fold_left (fun d kv => Py.set kv.1 kv.2 d) small.2 target.2).

(** One left-to-right pass. [pending] is a section still below the bound,
    to be folded into the section that follows; [kept] holds the sections
    already at the bound, last one first. At the end a pending section has
    no follower and is folded into the one before it. *)
Fixpoint merge_forward (minSize : Z) (pending : option section)
    (sections kept : list section) : list section :=
  match sections with
  | [] =>
      match pending with
      | None => reverse kept
      | Some p =>
          match kept with
          | [] => [p]
          | prev :: before => reverse (fold_into p prev :: before)
          end
      end
  | s :: rest =>
      let s := match pending with Some p => fold_into p s | None => s end in
      if Z.of_nat (size s) <? minSize
      then merge_forward minSize (Some s) rest kept
      else merge_forward minSize None rest (s :: kept)
  end.

(** Modelled from the spec: the normalization pass
    [mergeSmall(sections, minSize)] of section 4.3, which is the body of
    [SectionAnalyzer._merge_small_sections], a method that is not in the
    sources at hand. "Sections below minSize are folded into an adjacent
    section [...] the following section in the deterministic ordering;
    never produces an empty section; never runs when only one section
    exists." The method is handed no graph, so the target is the following
    section; the last section has none and goes into the one before it. *)
Definition mergeSmall (sections : list section) (minSize : Z) : list section :=
  match sections with
  | [] => sections
  | [_] => sections
  | _ => merge_forward minSize None sections []
  end.

(** The strategies [P] with the merge pass of the specification. *)
Definition with_spec_merge (P : Strategies) : Strategies :=
  {| structural_analysis := structural_analysis P;
     dependency_analysis := dependency_analysis P;
     enhanced_dependency_analysis := enhanced_dependency_analysis P;
     hybrid_analysis := hybrid_analysis P;
     _extract_enhanced_dependencies := _extract_enhanced_dependencies P;
     _group_by_dependencies := _group_by_dependencies P;
     _merge_small_sections := mergeSmall |}.

(** The size floor of the specification: every section has at least
    [minSize] files, unless there is exactly one section. *)
Definition size_floor (minSize : Z) (sections : list section) : Prop :=
  length sections = 1%nat \/ Forall (fun s => minSize <= Z.of_nat (size s)) sections.

Definition size_floorb (minSize : Z) (sections : list section) : bool :=
  (length sections =? 1)%nat || forallb (fun s => minSize <=? Z.of_nat (size s)) sections.

Definition key : Type := string * string * option string.

Record store : Type := {
  file_maps : gmap key (Py.dict string);
  structures : gmap key structure;
  metadatas : gmap key metadata
}.

Definition empty_store : store :=
  {| file_maps := ∅; structures := ∅; metadatas := ∅ |}.

(** Modelled from the spec: the PersistentCache contract of section 6,
    "getFileMap/putFileMap, getStructure/putStructure,
    getMetadata/putMetadata, all keyed by (owner, repo, branch)", which
    stands for [repo_cache.RepoCache] (not in the sources at hand), as three
    finite maps. [update_structure_cache] is handed a file map; it records
    the key list as the fingerprint of the stored record. *)
#[export] Instance memory_cache : RepoCache store := {|
  get_repo_files c owner repo branch := file_maps c !! (owner, repo, branch);
  cache_repo_files c owner repo files branch :=
    {| file_maps := <[(owner, repo, branch) := files]> (file_maps c);
       structures := structures c;
       metadatas := metadatas c |};
  get_repo_structure c owner repo branch := structures c !! (owner, repo, branch);
  update_structure_cache c owner repo files branch :=
    let stored := default empty_structure (structures c !! (owner, repo, branch)) in
    {| file_maps := file_maps c;
       structures :=
         <[(owner, repo, branch) :=
             {| st_sections := st_sections stored;
                st_files := Some (Py.keys files);
                st_section_method := st_section_method stored;
                st_rest := st_rest stored |}]> (structures c);
       metadatas := metadatas c |};
  get_repo_metadata c owner repo branch := metadatas c !! (owner, repo, branch);
  save_repo_metadata c owner repo metadata branch :=
    {| file_maps := file_maps c;
       structures := structures c;
       metadatas := <[(owner, repo, branch) := metadata]> (metadatas c) |}
|}.

End SpecModel.

(** ** Sample objects for the worked examples *)

Module Sample.
Import Remote Cache.

Definition file_entry (path : string) (size : Z) : mcp_entry :=
  {| e_name := Some path; e_path := Some path; e_type := Some "file";
     e_size := Some size; e_content := None; e_encoding := None |}.

(** A repository of five files in its root; the content call fails for
    [c.py], and [e.py] comes base64-encoded. *)
Definition get_file_contents (owner repo path : string) (branch : option string)
    : Py.result mcp_contents :=
  if String.eqb path "" then
    Py.Ok (McpList [file_entry "a.py" 10; file_entry "b.py" 20;
                    file_entry "c.py" 30; file_entry "d.py" 40;
                    file_entry "e.py" 50])
  else if String.eqb path "c.py" then
    Py.Raise (Py.Exception "Failed to call GitHub MCP tool get_file_contents")
  else if String.eqb path "e.py" then
    Py.Ok (McpObject {| e_name := Some path; e_path := Some path;
                        e_type := Some "file"; e_size := Some 50;
                        e_content := Some "aGVsbG8="; e_encoding := Some "base64" |})
  else
    Py.Ok (McpObject {| e_name := Some path; e_path := Some path;
                        e_type := Some "file"; e_size := Some 10;
                        e_content := Some ("# " +:+ path); e_encoding := None |}).

(** Search answers: [count] items [prefix0], [prefix1], ... per query. *)
Fixpoint numbered (prefix : string) (count : nat) : list code_item :=
  match count with
  | O => []
  | S n => numbered prefix n
             ++ [{| ci_path := Some (prefix +:+ pretty (N.of_nat n)) |}]
  end.

Definition server : McpServer :=
  {| tool_get_file_contents := get_file_contents;
     tool_search_repositories := fun _ =>
       Py.Ok {| rs_total_count := Some 1;
                rs_items := Some [{| rd_default_branch := Some "develop" |}] |};
     tool_search_code := fun q page per_page =>
       if page =? 1
       then Py.Ok {| cs_items := Some (numbered (q +:+ "/") (Z.to_nat per_page));
                     cs_total_count := Some 1000 |}
       else Py.Ok {| cs_items := Some []; cs_total_count := Some 1000 |} |}.

(** A remote side that cannot be reached. *)
Definition offline_github : Github :=
  {| get_repo := fun _ => Py.Raise (Py.GithubException "404 Not Found") |}.

Definition world : World :=
  {| run_mcp := fun _ => server;
     github_api := fun _ => offline_github;
     getenv_GITHUB_TOKEN := None;
     b64decode_utf8 := fun s =>
       if String.eqb s "aGVsbG8=" then Py.Ok "hello"
       else Py.Raise (Py.UnicodeDecodeError "invalid start byte") |}.

Definition mcp_client : GithubClientBase.client :=
  GithubClientMCP.__init__ world false None.

(** Stand-ins for the partition methods: all files in one section. *)
Definition strategies : SectionAnalyzer.Strategies :=
  {| SectionAnalyzer.structural_analysis := fun files _ => [("root", files)];
     SectionAnalyzer.dependency_analysis := fun files _ => [("root", files)];
     SectionAnalyzer.enhanced_dependency_analysis :=
       fun files _ _ _ _ => [("root", files)];
     SectionAnalyzer.hybrid_analysis := fun files _ => [("root", files)];
     SectionAnalyzer._extract_enhanced_dependencies := fun _ _ _ => [];
     SectionAnalyzer._group_by_dependencies := fun files _ _ => [("group", files)];
     SectionAnalyzer._merge_small_sections := SpecModel.mergeSmall |}.

(** A second stand-in: one section per file. *)
Definition per_file : SectionAnalyzer.Strategies :=
  {| SectionAnalyzer.structural_analysis :=
       fun files _ => map (fun kv => (kv.1, [kv])) files;
     SectionAnalyzer.dependency_analysis :=
       fun files _ => map (fun kv => (kv.1, [kv])) files;
     SectionAnalyzer.enhanced_dependency_analysis :=
       fun files _ _ _ _ => map (fun kv => (kv.1, [kv])) files;
     SectionAnalyzer.hybrid_analysis :=
       fun files _ => map (fun kv => (kv.1, [kv])) files;
     SectionAnalyzer._extract_enhanced_dependencies := fun _ _ _ => [];
     SectionAnalyzer._group_by_dependencies :=
       fun files _ _ => map (fun kv => (kv.1, [kv])) files;
     SectionAnalyzer._merge_small_sections := SpecModel.mergeSmall |}.

Definition files : Py.dict string := [("a.py", "x"); ("b.py", "y")].

Definition five_files : Py.dict string :=
  [("a.py", "1"); ("b.py", "2"); ("c.py", "3"); ("d.py", "4"); ("e.py", "5")].

(** A store that holds a structure record for [("o", "r", None)] whose
    file list is the key set of [files]. *)
Definition stored_structure : structure :=
  {| st_sections := Some [("first", ["a.py"]); ("second", ["b.py"])];
     st_files := Some ["b.py"; "a.py"];
     st_section_method := Some "DEPENDENCY";
     st_rest := [] |}.

Definition stored : SpecModel.store :=
  {| SpecModel.file_maps := ∅;
     SpecModel.structures := {[ ("o", "r", None) := stored_structure ]};
     SpecModel.metadatas := ∅ |}.

Definition caching_analyzer : SectionAnalyzer.analyzer :=
  SectionAnalyzer.__init__ None true.

Definition plain_analyzer : SectionAnalyzer.analyzer :=
  SectionAnalyzer.__init__ None false.

Definition start (c : SpecModel.store) : SectionAnalyzer.state SpecModel.store :=
  {| SectionAnalyzer.cache := c; SectionAnalyzer.calls := [] |}.

End Sample.

(** ** The backlink queries as the specification words them *)

Module SpecWording.

(** "Exact filename match, plus language-specific import-this-module
    phrasing derived from the filename without extension; package-root
    files resolve the module name to their parent directory's name." *)
Definition backlink_queries_spec (filepath : string) : list string :=
  let filename := PyStr.basename filepath in
  let '(name, ext) := PyStr.splitext filename in
  if String.eqb ext ".py" then
    let module_name :=
      if String.eqb name "__init__"
      then PyStr.basename (PyStr.dirname filepath)
      else name in
    [GithubClientMCP.quoted filename;
     GithubClientMCP.quoted ("import " +:+ module_name);
     GithubClientMCP.quoted ("from " +:+ module_name)]
  else [GithubClientMCP.quoted filename].

End SpecWording.

(** ** The traversal loop, the scoped query and the statistics *)

Module Traversal.
Import Remote GithubClientBase.

(** The loop [for item in items] of [collect_file_paths], with the
    recursive call on a directory as the parameter [descend]. *)
Definition each_item (descend : string -> walk -> option walk)
    (ignore_dirs : list string) (max_file_size : Z)
    (include_patterns extensions : option (list string))
    : list item -> walk -> option walk :=
  fix each (items : list item) (st : walk) {struct items} : option walk :=
    match items with
    | [] => Some st
    | it :: rest =>
        if any_in (item_path it) ignore_dirs then each rest st
        else
          match item_kind it with
          | TDir =>
              match descend (item_path it) st with
              | None => None
              | Some st' => each rest st'
              end
          | TFile =>
              if item_size it >? max_file_size then each rest st
              else if negb (should_include_file extensions
                              include_patterns (item_path it))
              then each rest st
              else each rest (st.1, st.2 ++ [item_path it])
          end
    end.

(** A path that the traversal may collect: a listed file within the size
    bound that passes both filters. *)
Definition collectable (self : client) (owner repo branch : string)
    (ignore_dirs : list string) (max_file_size : Z)
    (include_patterns extensions : option (list string)) (path : string) : Prop :=
  any_in path ignore_dirs = false
  /\ should_include_file extensions include_patterns path = true
  /\ exists dir items it,
       list_repository_files self owner repo dir (Some branch) = Py.Ok items
       /\ it ∈ items
       /\ item_path it = path
       /\ item_kind it = TFile
       /\ item_size it <= max_file_size.

(** What a traversal step may do to its state: directories are only
    added to the visited set, and paths are only appended, each of them
    one that [ok] holds for. *)
Definition extends (ok : string -> Prop) (st st' : walk) : Prop :=
  st.1 ⊆ st'.1 /\ exists new, st'.2 = st.2 ++ new /\ Forall ok new.

End Traversal.

Module Search.
Import Remote GithubClientMCP.

(** The [repo:owner/repo] tag and the query [search_code] sends. *)
Definition repo_tag (owner repo : string) : string :=
  "repo:" +:+ owner +:+ "/" +:+ repo.

Definition scoped_query (owner repo query : string) : string :=
  if negb (PyStr.contains query (repo_tag owner repo))
  then repo_tag owner repo +:+ " " +:+ query
  else query.

(** [search_code] with a given number of rounds for its loop. *)
Definition search_code_within (rounds : nat) (server : McpServer)
    (owner repo query : string) (max_results : Z) : Py.result (list code_item) :=
  Py.try_except
    (Py.bind (search_code_loop rounds server (scoped_query owner repo query) 1
                (Z.min 100 max_results) max_results [])
       (fun results => Py.Ok (slice_to max_results results)))
    (fun _ => Py.Ok []).

End Search.

Module Stats.
Import Remote.

(** An item of a [search_repositories] answer with the keys that
    [get_repository_stats] reads; [rp_license] is the license object, a
    dict, when the key is there and not null. *)
Record repo_details : Type := {
  rp_name : option string;
  rp_full_name : option string;
  rp_description : option string;
  rp_default_branch : option string;
  rp_language : option string;
  rp_stargazers_count : option Z;
  rp_forks_count : option Z;
  rp_open_issues_count : option Z;
  rp_created_at : option string;
  rp_updated_at : option string;
  rp_private : option bool;
  rp_archived : option bool;
  rp_license : option (Py.dict string)
}.

Record repo_details_search : Type := {
  rds_total_count : option Z;
  rds_items : option (list repo_details)
}.

(** The dict that [get_repository_stats] returns when it finds the
    repository. *)
Record stats : Type := {
  name : option string;
  full_name : option string;
  description : option string;
  default_branch : option string;
  language : option string;
  stars : option Z;
  forks : option Z;
  open_issues : option Z;
  created_at : option string;
  updated_at : option string;
  is_private : bool;
  is_archived : bool;
  license : option string
}.

(** [GithubClientBase.get_repository_stats]: the empty dict, here [None]. *)
Definition base_get_repository_stats (owner repo : string) : Py.result (option stats) :=
  Py.Ok None.

(** [GithubClientMCP.get_repository_stats], over the answer of the
    [search_repositories] tool; [None] is the empty dict. *)
Definition get_repository_stats
    (search_repositories : string -> Py.result repo_details_search)
    (owner repo : string) : Py.result (option stats) :=
  Py.try_except
    (Py.bind (search_repositories ("repo:" +:+ owner +:+ "/" +:+ repo))
       (fun repo_info =>
     if default 0 (rds_total_count repo_info) >? 0 then
       match default [] (rds_items repo_info) with
       | repo_data :: _ =>
           Py.Ok (Some
             {| name := rp_name repo_data;
                full_name := rp_full_name repo_data;
                description := rp_description repo_data;
                default_branch := rp_default_branch repo_data;
                language := rp_language repo_data;
                stars := rp_stargazers_count repo_data;
                forks := rp_forks_count repo_data;
                open_issues := rp_open_issues_count repo_data;
                created_at := rp_created_at repo_data;
                updated_at := rp_updated_at repo_data;
                is_private := default false (rp_private repo_data);
                is_archived := default false (rp_archived repo_data);
                license :=
                  match rp_license repo_data with
                  | Some ((_ :: _) as license) => Py.get license "name"
                  | _ => None
                  end |})
       | [] => Py.Ok None
       end
     else Py.Ok None))
    (fun _ => Py.Ok None).

(** The same answer as [_get_default_branch] reads it: only the default
    branch of every item. *)
Definition as_repo_search (info : repo_details_search) : repo_search :=
  {| rs_total_count := rds_total_count info;
     rs_items :=
       (fun items => map (fun d => {| rd_default_branch := rp_default_branch d |})
                         items) <$> rds_items info |}.

(** A server whose [search_repositories] tool gives these answers. *)
Definition with_repositories (server : McpServer)
    (search_repositories : string -> Py.result repo_details_search) : McpServer :=
  {| tool_get_file_contents := tool_get_file_contents server;
     tool_search_repositories := fun query =>
       Py.bind (search_repositories query) (fun info => Py.Ok (as_repo_search info));
     tool_search_code := tool_search_code server |}.

End Stats.

(** ** More sample objects *)

Module Examples.
Import Remote Cache.

(** An MCP client with caching on, and a store that holds a file map. *)
Definition caching_client : GithubClientBase.client :=
  GithubClientMCP.__init__ Sample.world true None.

Definition store_with_files : SpecModel.store :=
  {| SpecModel.file_maps := {[ ("o", "r", None) := Sample.files ]};
     SpecModel.structures := ∅;
     SpecModel.metadatas := ∅ |}.

(** A direct client whose remote side cannot be reached. *)
Definition unreachable_client : GithubClientBase.client :=
  {| GithubClientBase.use_cache := false;
     GithubClientBase._list_repository_files :=
       GithubClientDirect._list_repository_files Sample.offline_github;
     GithubClientBase._get_file_content :=
       GithubClientDirect._get_file_content Sample.world Sample.offline_github;
     GithubClientBase._get_default_branch :=
       GithubClientDirect._get_default_branch Sample.offline_github;
     GithubClientBase.search_references := None |}.

(** What the sample repository gives when the fetches of a batch complete
    last to first, and first to last. *)
Definition fetched_reversed : Py.dict string :=
  [("e.py", "hello"); ("d.py", "# d.py"); ("b.py", "# b.py"); ("a.py", "# a.py")].

Definition fetched_in_order : Py.dict string :=
  [("a.py", "# a.py"); ("b.py", "# b.py"); ("d.py", "# d.py"); ("e.py", "hello")].

(** A search tool that answers the first page and fails on the second. *)
Definition first_page : code_search :=
  {| cs_items := Some [{| ci_path := Some "x.py" |}; {| ci_path := Some "y.py" |}];
     cs_total_count := Some 10 |}.

Definition paging_server : McpServer :=
  {| tool_get_file_contents := Sample.get_file_contents;
     tool_search_repositories := fun _ => Py.Raise (Py.Exception "timeout");
     tool_search_code := fun _ page _ =>
       if page =? 1 then Py.Ok first_page
       else Py.Raise (Py.Exception "rate limit exceeded") |}.

(** Dependencies that reach outside the files of a section. *)
Definition dependencies : Py.dict (gset string) :=
  [("a.py", {[ "b.py"; "x.py" ]}); ("x.py", {[ "a.py" ]})].

(** An analyzer built over a client with code search, without caching. *)
Definition capable_analyzer : SectionAnalyzer.analyzer :=
  SectionAnalyzer.__init__ (Some Sample.mcp_client) false.

(** A stand-in for the partition methods whose structural analysis gives
    one section with every file and one section without files. *)
Definition with_empty_section : SectionAnalyzer.Strategies :=
  {| SectionAnalyzer.structural_analysis :=
       fun files _ => [("root", files); ("empty", [])];
     SectionAnalyzer.dependency_analysis :=
       SectionAnalyzer.dependency_analysis Sample.strategies;
     SectionAnalyzer.enhanced_dependency_analysis :=
       SectionAnalyzer.enhanced_dependency_analysis Sample.strategies;
     SectionAnalyzer.hybrid_analysis :=
       SectionAnalyzer.hybrid_analysis Sample.strategies;
     SectionAnalyzer._extract_enhanced_dependencies :=
       SectionAnalyzer._extract_enhanced_dependencies Sample.strategies;
     SectionAnalyzer._group_by_dependencies :=
       SectionAnalyzer._group_by_dependencies Sample.strategies;
     SectionAnalyzer._merge_small_sections := SpecModel.mergeSmall |}.

End Examples.

(** * Properties *)

Module PyStrFacts.
Import PyStr.

Lemma startswith_spec s pre :
  startswith s pre = true <-> exists t, s = pre +:+ t.
Proof.
  revert s; induction pre as [|a pre IH]; intros s; simpl.
  - split; [intros _; by exists s|done].
  - destruct s as [|b s]; simpl.
    + split; [done|intros [t Ht]; discriminate].
    + rewrite andb_true_iff, IH, Ascii.eqb_eq. split.
      * intros [-> [t ->]]. by exists t.
      * intros [t Ht]. injection Ht as -> ->. eauto.
Qed.

Lemma endswith_spec s suf :
  endswith s suf = true <-> suffix_of suf s.
Proof.
  unfold suffix_of. induction s as [|c s IH]; cbn [endswith].
  - rewrite orb_false_r, String.eqb_eq. split.
    + intros <-. by exists "".
    + intros [[|c p] Hp]; [done|discriminate].
  - rewrite orb_true_iff, String.eqb_eq, IH. split.
    + intros [<-|[p ->]]; [by exists ""|by exists (String c p)].
    + intros [[|d p] Hp]; simpl in Hp; [by left|].
      injection Hp as -> ->. right. eauto.
Qed.

Lemma contains_spec s pat :
  contains s pat = true <-> occurs_in pat s.
Proof.
  unfold occurs_in. induction s as [|c s IH]; cbn [contains].
  - rewrite orb_false_r, startswith_spec. split.
    + intros [t Ht]. by exists "", t.
    + intros [[|d a] [b Hb]]; [by exists b|discriminate].
  - rewrite orb_true_iff, startswith_spec, IH. split.
    + intros [[t Ht]|(a & b & ->)]; [by exists "", t|by exists (String c a), b].
    + intros [[|d a] [b Hb]]; simpl in Hb; [left; eauto|].
      injection Hb as -> ->. right. eauto.
Qed.

Lemma str_take_drop n s : take n s +:+ drop n s = s.
Proof.
  revert s; induction n as [|n IH]; intros [|c s]; try done.
  cbn [take drop]. change (String c (take n s +:+ drop n s) = String c s).
  by rewrite IH.
Qed.

Example basename_nested : basename "pkg/sub/mod.py" = "mod.py".
Proof. reflexivity. Qed.
Example basename_plain : basename "mod.py" = "mod.py".
Proof. reflexivity. Qed.
Example dirname_nested : dirname "pkg/sub/__init__.py" = "pkg/sub".
Proof. reflexivity. Qed.
Example dirname_plain : dirname "__init__.py" = "".
Proof. reflexivity. Qed.
Example dirname_root : dirname "/x" = "/".
Proof. reflexivity. Qed.
Example splitext_py : splitext "mod.py" = ("mod", ".py").
Proof. reflexivity. Qed.
Example splitext_two_dots : splitext "a.tar.gz" = ("a.tar", ".gz").
Proof. reflexivity. Qed.
Example splitext_dotfile : splitext ".py" = (".py", "").
Proof. reflexivity. Qed.
Example splitext_none : splitext "Makefile" = ("Makefile", "").
Proof. reflexivity. Qed.

End PyStrFacts.

Module PyFacts.
Import Py.

Lemma get_set_eq {V} k (v : V) d : get (set k v d) k = Some v.
Proof.
  induction d as [|[k' v'] d IH]; simpl.
  - by rewrite String.eqb_refl.
  - destruct (String.eqb k' k) eqn:E; simpl.
    + by rewrite String.eqb_refl.
    + by rewrite E.
Qed.

Lemma get_set_ne {V} k k' (v : V) d : k <> k' -> get (set k v d) k' = get d k'.
Proof.
  intros Hne. induction d as [|[k0 v0] d IH]; simpl.
  - destruct (String.eqb k k') eqn:E; [|done].
    apply String.eqb_eq in E. done.
  - destruct (String.eqb k0 k) eqn:E; simpl.
    + apply String.eqb_eq in E as ->.
      destruct (String.eqb k k') eqn:E'; [|done].
      apply String.eqb_eq in E'. done.
    + by rewrite IH.
Qed.

Lemma get_Some_keys {V} (d : dict V) k v : get d k = Some v -> k ∈ keys d.
Proof.
  induction d as [|[k' v'] d IH]; simpl; [done|].
  destruct (String.eqb k' k) eqn:E.
  - apply String.eqb_eq in E as ->. intros _. apply list_elem_of_here.
  - intros H. apply list_elem_of_further. auto.
Qed.

Lemma get_None_keys {V} (d : dict V) k : get d k = None <-> k ∉ keys d.
Proof.
  induction d as [|[k' v'] d IH]; simpl.
  - split; [intros _; apply not_elem_of_nil|done].
  - rewrite not_elem_of_cons. destruct (String.eqb k' k) eqn:E.
    + apply String.eqb_eq in E as ->. split; [done|]. intros [? _]. done.
    + apply String.eqb_neq in E. rewrite IH. split.
      * intros Hk. split; [congruence|done].
      * by intros [_ Hk].
Qed.

Lemma mem_keys {V} (d : dict V) k : mem d k = true <-> k ∈ keys d.
Proof.
  unfold mem. destruct (get d k) eqn:E.
  - split; [intros _; eapply get_Some_keys; eauto|done].
  - apply get_None_keys in E. split; [done|]. intros. contradiction.
Qed.

Lemma keys_set {V} k (v : V) d :
  keys (set k v d) = if mem d k then keys d else keys d ++ [k].
Proof.
  unfold mem. induction d as [|[k' v'] d IH]; simpl; [done|].
  destruct (String.eqb k' k) eqn:E; simpl.
  - apply String.eqb_eq in E as ->. done.
  - unfold keys in *. rewrite IH. by destruct (get d k).
Qed.

Lemma wf_set {V} k (v : V) d : wf d -> wf (set k v d).
Proof.
  unfold wf. rewrite keys_set. destruct (mem d k) eqn:E; [done|].
  intros Hnd. apply NoDup_app. split_and!; [done| |apply NoDup_singleton].
  intros x Hx Hx'. apply list_elem_of_singleton in Hx' as ->.
  apply mem_keys in Hx. congruence.
Qed.

Lemma wf_of_pairs {V} (l : list (string * V)) : wf (of_pairs l).
Proof.
  unfold of_pairs. assert (wf (V:=V) []) as H by apply NoDup_nil_2.
  revert H. generalize (@nil (string * V)).
  induction l as [|kv l IH]; intros d Hd; simpl; [done|].
  apply IH. by apply wf_set.
Qed.

End PyFacts.

(** ** The inclusion filter *)

Module FilterFacts.
Import PyStr PyStrFacts GithubClientBase.

Lemma any_endswith_spec path exts :
  any_endswith path exts = true <-> exists ext, ext ∈ exts /\ suffix_of ext path.
Proof.
  unfold any_endswith. rewrite existsb_exists. split.
  - intros (ext & Hin & Hs). exists ext. split; [by apply list_elem_of_In|].
    by apply endswith_spec.
  - intros (ext & Hin & Hs). exists ext. split; [by apply list_elem_of_In|].
    by apply endswith_spec.
Qed.

Lemma any_in_spec path patterns :
  any_in path patterns = true <-> exists pat, pat ∈ patterns /\ occurs_in pat path.
Proof.
  unfold any_in. rewrite existsb_exists. split.
  - intros (pat & Hin & Hs). exists pat. split; [by apply list_elem_of_In|].
    by apply contains_spec.
  - intros (pat & Hin & Hs). exists pat. split; [by apply list_elem_of_In|].
    by apply contains_spec.
Qed.

Lemma any_endswith_none path exts :
  (forall ext, ext ∈ exts -> ~ suffix_of ext path) -> any_endswith path exts = false.
Proof.
  intros Hno. apply not_true_is_false. rewrite any_endswith_spec.
  intros (ext & Hin & Hs). by apply (Hno ext).
Qed.

Lemma truthy_list_default {A} (l : option (list A)) :
  Py.truthy_list l = false -> default [] l = [].
Proof. destruct l as [[|x l]|]; simpl; congruence. Qed.

Lemma should_include_file_unmatched extensions include_patterns path :
  Py.truthy_list extensions = true ->
  (forall ext, ext ∈ default [] extensions -> ~ suffix_of ext path) ->
  should_include_file extensions include_patterns path
  = any_in path (default [] include_patterns).
Proof.
  intros Hcfg Hno. unfold should_include_file.
  rewrite Hcfg, (any_endswith_none _ _ Hno). cbn [negb].
  destruct (Py.truthy_list include_patterns) eqn:Hp; cbn [andb].
  - by destruct (any_in path (default [] include_patterns)).
  - by rewrite (truthy_list_default _ Hp).
Qed.

Lemma not_suffix_of ext path : endswith path ext = false -> ~ suffix_of ext path.
Proof. intros H Hs. apply endswith_spec in Hs. congruence. Qed.

(** C5. With an extension allow-list configured, a path whose suffix is
    none of the allowed extensions is included exactly when some
    include-pattern occurs in it; with no allow-list configured, a path is
    excluded exactly when its suffix is one of the binary extensions. *)
Theorem should_include_file_filter
    (extensions include_patterns : option (list string)) (path : string) :
  (Py.truthy_list extensions = true ->
   (forall ext, ext ∈ default [] extensions -> ~ suffix_of ext path) ->
   (should_include_file extensions include_patterns path = true <->
    exists pat, pat ∈ default [] include_patterns /\ occurs_in pat path))
  /\
  (Py.truthy_list extensions = false ->
   (should_include_file extensions include_patterns path = false <->
    exists ext, ext ∈ binary_extensions /\ suffix_of ext path)).
Proof.
  split.
  - intros Hcfg Hno.
    by rewrite should_include_file_unmatched, any_in_spec.
  - intros Hcfg. unfold should_include_file. rewrite Hcfg.
    rewrite <- any_endswith_spec.
    by destruct (any_endswith path binary_extensions).
Qed.

(** C10. A path admitted by the include-pattern override is included
    whatever its suffix, a binary extension too; a path whose suffix is an
    allowed extension is excluded when the suffix is also a binary
    extension. *)
Theorem include_pattern_bypasses_binary_skip
    (extensions include_patterns : option (list string)) (path : string) :
  (Py.truthy_list extensions = true ->
   (forall ext, ext ∈ default [] extensions -> ~ suffix_of ext path) ->
   (exists pat, pat ∈ default [] include_patterns /\ occurs_in pat path) ->
   should_include_file extensions include_patterns path = true)
  /\
  (Py.truthy_list extensions = true ->
   (exists ext, ext ∈ default [] extensions /\ suffix_of ext path) ->
   (exists ext, ext ∈ binary_extensions /\ suffix_of ext path) ->
   should_include_file extensions include_patterns path = false).
Proof.
  split.
  - intros Hcfg Hno Hpat.
    by rewrite should_include_file_unmatched, any_in_spec.
  - intros Hcfg Hext Hbin. unfold should_include_file. rewrite Hcfg.
    apply any_endswith_spec in Hext, Hbin. by rewrite Hext, Hbin.
Qed.

Lemma should_include_file_filter_witness :
  (should_include_file (Some [".py"]) (Some ["README"]) "README.md" = true <->
   exists pat, pat ∈ ["README"] /\ occurs_in pat "README.md")
  /\
  (should_include_file None None "img/logo.png" = false <->
   exists ext, ext ∈ binary_extensions /\ suffix_of ext "img/logo.png").
Proof.
  split.
  - apply (proj1 (should_include_file_filter
                    (Some [".py"]) (Some ["README"]) "README.md")).
    + reflexivity.
    + intros ext Hin. apply list_elem_of_singleton in Hin as ->.
      apply not_suffix_of. reflexivity.
  - apply (proj2 (should_include_file_filter None None "img/logo.png")).
    reflexivity.
Defined.

Lemma include_pattern_bypasses_binary_skip_witness :
  should_include_file (Some [".py"]) (Some ["logo"]) "img/logo.png" = true
  /\ should_include_file (Some [".png"]) (Some ["README"]) "img/logo.png" = false.
Proof.
  split.
  - apply (proj1 (include_pattern_bypasses_binary_skip
                    (Some [".py"]) (Some ["logo"]) "img/logo.png")).
    + reflexivity.
    + intros ext Hin. apply list_elem_of_singleton in Hin as ->.
      apply not_suffix_of. reflexivity.
    + exists "logo". split; [apply list_elem_of_here|].
      by exists "img/", ".png".
  - apply (proj2 (include_pattern_bypasses_binary_skip
                    (Some [".png"]) (Some ["README"]) "img/logo.png")).
    + reflexivity.
    + exists ".png". split; [apply list_elem_of_here|]. by exists "img/logo".
    + exists ".png". split; [|by exists "img/logo"].
      apply list_elem_of_In. simpl. tauto.
Defined.

Example include_readme :
  should_include_file (Some [".py"]) (Some ["README"]) "README.md" = true.
Proof. reflexivity. Qed.

Example exclude_notes :
  should_include_file (Some [".py"]) (Some ["README"]) "notes.txt" = false.
Proof. reflexivity. Qed.

Example exclude_png_without_filter :
  should_include_file None None "img/logo.png" = false.
Proof. reflexivity. Qed.

Example override_admits_png :
  should_include_file (Some [".py"]) (Some ["logo"]) "img/logo.png" = true.
Proof. reflexivity. Qed.

Example allowed_png_still_skipped :
  should_include_file (Some [".png"]) (Some ["README"]) "img/logo.png" = false.
Proof. reflexivity. Qed.

End FilterFacts.

(** ** The fetch phase of [get_repository_structure] *)

Module FetchFacts.
Import Remote Cache GithubClientBase.

Lemma batches_concat fuel size paths :
  (0 < size)%nat -> (length paths <= fuel)%nat ->
  concat (batches fuel size paths) = paths.
Proof.
  intros Hsize. revert paths.
  induction fuel as [|fuel IH]; intros paths Hlen.
  - destruct paths; simpl in *; [done|lia].
  - destruct paths as [|p paths]; [done|].
    cbn [batches concat]. rewrite IH.
    + apply take_drop.
    + rewrite length_drop. simpl in *. lia.
Qed.

Section Fetch.
Context (self : client) (as_completed : list string -> list string).
Context (owner repo branch : string).
Hypothesis as_completed_perm : forall batch, as_completed batch ≡ₚ batch.

Local Abbreviation outcome := (GithubClientBase.outcome self owner repo branch).

Lemma fetch_fold_get (l : list string) (result : Py.dict string) (path : string) :
  Py.get (fold_left (fun result p =>
                       match get_file_content self owner repo p (Some branch) with
                       | Py.Ok content => Py.set p content result
                       | Py.Raise _ => result
                       end) l result) path
  = outcome path (path ∈ l) (Py.get result path).
Proof.
  unfold outcome. revert result.
  induction l as [|p l IH]; intros result; cbn [fold_left].
  - destruct (get_file_content _ _ _ _ _); [|done].
    rewrite decide_False; [done|apply not_elem_of_nil].
  - rewrite IH. destruct (decide (p = path)) as [->|Hne].
    + destruct (get_file_content self owner repo path (Some branch)) eqn:E.
      * rewrite PyFacts.get_set_eq.
        rewrite (decide_True (P := path ∈ path :: l)) by apply list_elem_of_here.
        by destruct (decide (path ∈ l)).
      * done.
    + assert (Py.get (match get_file_content self owner repo p (Some branch) with
                      | Py.Ok content => Py.set p content result
                      | Py.Raise _ => result
                      end) path = Py.get result path) as ->.
      { destruct (get_file_content self owner repo p (Some branch)); [|done].
        by apply PyFacts.get_set_ne. }
      destruct (get_file_content self owner repo path (Some branch)); [|done].
      destruct (decide (path ∈ l)) as [Hin|Hnin].
      * rewrite decide_True; [done|by apply list_elem_of_further].
      * rewrite decide_False; [done|].
        rewrite not_elem_of_cons. split; [congruence|done].
Qed.

Lemma fetch_batch_get batch result path :
  Py.get (fetch_batch self as_completed owner repo branch batch result) path
  = outcome path (path ∈ batch) (Py.get result path).
Proof.
  unfold fetch_batch. rewrite fetch_fold_get. unfold outcome.
  destruct (get_file_content _ _ _ _ _); [|done].
  destruct (decide (path ∈ batch)) as [Hin|Hnin].
  - rewrite decide_True; [done|by rewrite as_completed_perm].
  - rewrite decide_False; [done|by rewrite as_completed_perm].
Qed.

Lemma fetch_batches_get (bs : list (list string)) result path :
  Py.get (fold_left (fun result batch =>
                       fetch_batch self as_completed owner repo branch batch result)
                    bs result) path
  = outcome path (path ∈ concat bs) (Py.get result path).
Proof.
  revert result. induction bs as [|b bs IH]; intros result; cbn [fold_left concat].
  - unfold outcome. destruct (get_file_content _ _ _ _ _); [|done].
    rewrite decide_False; [done|apply not_elem_of_nil].
  - rewrite IH, fetch_batch_get. unfold outcome.
    destruct (get_file_content _ _ _ _ _); [|done].
    destruct (decide (path ∈ concat bs)) as [Hin|Hnin].
    + rewrite decide_True; [done|]. apply elem_of_app. by right.
    + destruct (decide (path ∈ b)) as [Hb|Hb].
      * rewrite decide_True; [done|]. apply elem_of_app. by left.
      * rewrite decide_False; [done|]. rewrite elem_of_app. tauto.
Qed.

(** The fetch loop with a positive batch size and worker count returns a
    file map, and a path is in it exactly when it was to be fetched and its
    fetch succeeded. *)
Lemma fetch_all_get all_file_paths batch_size max_workers :
  0 < batch_size -> 0 < max_workers ->
  exists result,
    fetch_all self as_completed owner repo branch all_file_paths
              batch_size max_workers = Py.Ok result
    /\ forall path,
         Py.get result path = outcome path (path ∈ all_file_paths) None.
Proof.
  intros Hb Hw. unfold fetch_all.
  rewrite (proj2 (Z.eqb_neq _ _)) by lia.
  rewrite (proj2 (Z.ltb_ge _ _)) by lia.
  pose proof (batches_concat (length all_file_paths) (Z.to_nat batch_size)
                all_file_paths ltac:(lia) ltac:(lia)) as Hcat.
  destruct (batches _ _ _) as [|b bs] eqn:E.
  - exists []. split; [done|]. intros path. simpl in Hcat. subst.
    unfold outcome. destruct (get_file_content _ _ _ _ _); [|done].
    rewrite decide_False; [done|apply not_elem_of_nil].
  - rewrite (proj2 (Z.leb_gt _ _)) by lia.
    eexists. split; [done|]. intros path.
    rewrite fetch_batches_get. by rewrite Hcat.
Qed.

End Fetch.

(** C4. When [get_repository_structure] gets to fetch the collected paths
    (with a positive batch size and worker count, whatever the order in
    which the fetches complete), it returns a file map and raises nothing;
    a collected path whose fetch returns is in the map with its content, and
    a path whose fetch or decoding raises is absent from it. *)
Theorem fetch_failure_is_isolated {C : Type} {cache_ops : RepoCache C}
    (self : client) (as_completed : list string -> list string)
    (owner repo : string) (fuel : nat) (branch : option string)
    (ignore_dirs : option (list string)) (max_file_size : Z)
    (include_patterns extensions : option (list string))
    (force_refresh : bool) (batch_size max_workers : Z) (c : C)
    (b : string) (visited : gset string) (all_file_paths : list string) :
  (forall batch, as_completed batch ≡ₚ batch) ->
  0 < batch_size -> 0 < max_workers ->
  cached_files self owner repo branch force_refresh c = None ->
  resolve_branch self owner repo branch = Py.Ok b ->
  collect_file_paths self owner repo fuel b
    (default default_ignore_dirs ignore_dirs) max_file_size
    include_patterns extensions EmptyString (∅, []) = Some (visited, all_file_paths) ->
  exists result c',
    get_repository_structure self as_completed owner repo fuel branch ignore_dirs
      max_file_size include_patterns extensions force_refresh
      batch_size max_workers c = Some (Py.Ok result, c')
    /\ forall path,
         (forall content,
            path ∈ all_file_paths ->
            get_file_content self owner repo path (Some b) = Py.Ok content ->
            Py.get result path = Some content)
         /\ (Py.raises (get_file_content self owner repo path (Some b)) ->
             Py.get result path = None)
         /\ (path ∉ all_file_paths -> Py.get result path = None).
Proof.
  intros Hperm Hb Hw Hmiss Hbranch Hwalk.
  unfold get_repository_structure. rewrite Hmiss, Hbranch, Hwalk.
  destruct (fetch_all_get self as_completed owner repo b Hperm
              all_file_paths batch_size max_workers Hb Hw) as (result & Hres & Hget).
  assert (forall path,
            (forall content,
               path ∈ all_file_paths ->
               get_file_content self owner repo path (Some b) = Py.Ok content ->
               Py.get result path = Some content)
            /\ (Py.raises (get_file_content self owner repo path (Some b)) ->
                Py.get result path = None)
            /\ (path ∉ all_file_paths -> Py.get result path = None)) as Hall.
  { intros path. rewrite Hget. unfold outcome. split_and!.
    - intros content Hin ->. by rewrite decide_True.
    - by intros [e ->].
    - intros Hnin. destruct (get_file_content _ _ _ _ _); [|done].
      by rewrite decide_False. }
  destruct all_file_paths as [|p ps].
  - exists [], c. split; [done|]. intros path.
    unfold fetch_all in Hres.
    rewrite (proj2 (Z.eqb_neq _ _)), (proj2 (Z.ltb_ge _ _)) in Hres by lia.
    simpl in Hres. injection Hres as <-. apply Hall.
  - rewrite Hres. eauto.
Qed.

Lemma fetch_failure_is_isolated_witness :
  exists result c',
    get_repository_structure (cache_ops := SpecModel.memory_cache)
      Sample.mcp_client reverse "o" "r" 2 None None 500000 None None false
      10 5 SpecModel.empty_store = Some (Py.Ok result, c')
    /\ forall path,
         (forall content,
            path ∈ ["a.py"; "b.py"; "c.py"; "d.py"; "e.py"] ->
            get_file_content Sample.mcp_client "o" "r" path (Some "develop")
              = Py.Ok content ->
            Py.get result path = Some content)
         /\ (Py.raises (get_file_content Sample.mcp_client "o" "r" path
                                         (Some "develop")) ->
             Py.get result path = None)
         /\ (path ∉ ["a.py"; "b.py"; "c.py"; "d.py"; "e.py"] ->
             Py.get result path = None).
Proof.
  apply (fetch_failure_is_isolated (cache_ops := SpecModel.memory_cache)
           Sample.mcp_client reverse "o" "r" 2 None None 500000 None None false
           10 5 SpecModel.empty_store "develop" ({[ EmptyString ]} ∪ ∅)).
  - intros batch. apply reverse_Permutation.
  - lia.
  - lia.
  - reflexivity.
  - reflexivity.
  - vm_compute. reflexivity.
Defined.

(** One of five fetches fails: the other four are in the map. *)
Example one_of_five_fails :
  get_repository_structure (cache_ops := SpecModel.memory_cache)
    Sample.mcp_client reverse "o" "r" 2 None None 500000 None None false
    10 5 SpecModel.empty_store
  = Some (Py.Ok [("e.py", "hello"); ("d.py", "# d.py");
                 ("b.py", "# b.py"); ("a.py", "# a.py")],
          SpecModel.empty_store).
Proof. vm_compute. reflexivity. Qed.

(** A zero batch size makes [range] raise before any fetch. *)
Example zero_batch_size_raises :
  get_repository_structure (cache_ops := SpecModel.memory_cache)
    Sample.mcp_client reverse "o" "r" 2 None None 500000 None None false
    0 5 SpecModel.empty_store
  = Some (Py.Raise (Py.ValueError "range() arg 3 must not be zero"),
          SpecModel.empty_store).
Proof. vm_compute. reflexivity. Qed.

End FetchFacts.

(** ** Default branch and capability flag *)

Module ClientFacts.
Import Remote Cache GithubClientBase.

Lemma base_default_branch_main owner repo :
  base_get_default_branch owner repo = Py.Ok "main".
Proof. reflexivity. Qed.

(** The MCP client never raises from [_get_default_branch]. *)
Lemma mcp_default_branch_returns server owner repo :
  exists branch, GithubClientMCP._get_default_branch server owner repo = Py.Ok branch.
Proof.
  unfold GithubClientMCP._get_default_branch.
  destruct (GithubClientMCP.default_branch_lookup server owner repo) as [[b|]|e];
    simpl; eauto.
Qed.

(** A failed remote call makes the MCP client answer ["main"]. *)
Lemma mcp_default_branch_fallback server owner repo e :
  tool_search_repositories server ("repo:" +:+ owner +:+ "/" +:+ repo) = Py.Raise e ->
  GithubClientMCP._get_default_branch server owner repo = Py.Ok "main".
Proof.
  intros H. unfold GithubClientMCP._get_default_branch,
    GithubClientMCP.default_branch_lookup.
  by rewrite H.
Qed.

(** The direct client passes a failure of [get_repo] on to its caller. *)
Lemma direct_default_branch_propagates github owner repo e :
  get_repo github (owner +:+ "/" +:+ repo) = Py.Raise e ->
  GithubClientDirect._get_default_branch github owner repo = Py.Raise e.
Proof.
  intros H. unfold GithubClientDirect._get_default_branch. by rewrite H.
Qed.

(** C6, at the failing input. A direct client whose remote call fails:
    [_get_default_branch] raises instead of answering ["main"], and
    [get_repository_structure] called without a branch raises with it. *)
Theorem direct_default_branch_raises :
  exists client,
    GithubClientDirect.__init__ Sample.world (Some "token") false = Py.Ok client
    /\ _get_default_branch client "o" "r"
       = Py.Raise (Py.GithubException "404 Not Found")
    /\ get_repository_structure (cache_ops := SpecModel.memory_cache)
         client reverse "o" "r" 2 None None 500000 None None false 10 5
         SpecModel.empty_store
       = Some (Py.Raise (Py.GithubException "404 Not Found"),
               SpecModel.empty_store).
Proof. eexists. split_and!; reflexivity. Qed.

(** The same remote failure through the MCP client: the fallback name. *)
Example mcp_default_branch_offline :
  GithubClientMCP._get_default_branch
    {| tool_get_file_contents := Sample.get_file_contents;
       tool_search_repositories := fun _ => Py.Raise (Py.Exception "timeout");
       tool_search_code := fun _ _ _ => Py.Raise (Py.Exception "timeout") |}
    "o" "r" = Py.Ok "main".
Proof. reflexivity. Qed.

Lemma has_code_search_spec (self : client) :
  has_code_search self = true <-> exists f, search_references self = Some (Method f).
Proof.
  unfold has_code_search. destruct (search_references self) as [[f|]|].
  - split; [eauto|done].
  - split; [done|]. intros [f Hf]. discriminate.
  - split; [done|]. intros [f Hf]. discriminate.
Qed.

Lemma mcp_has_code_search w use_cache claude_executable :
  has_code_search (GithubClientMCP.__init__ w use_cache claude_executable) = true.
Proof. reflexivity. Qed.

Lemma direct_has_no_code_search w github_token use_cache client :
  GithubClientDirect.__init__ w github_token use_cache = Py.Ok client ->
  has_code_search client = false.
Proof.
  unfold GithubClientDirect.__init__.
  destruct (negb _); [done|]. by intros [= <-].
Qed.

(** The analysis branches on the stored flag of the analyzer only. *)
Lemma select_analysis_reads_flag P (a1 a2 : SectionAnalyzer.analyzer)
    repo_files method max_section_size owner repo branch :
  SectionAnalyzer.has_code_search a1 = SectionAnalyzer.has_code_search a2 ->
  SectionAnalyzer.select_analysis P a1 repo_files method max_section_size
    owner repo branch
  = SectionAnalyzer.select_analysis P a2 repo_files method max_section_size
    owner repo branch.
Proof. intros H. unfold SectionAnalyzer.select_analysis. by rewrite H. Qed.

(** C9, as the code has it. The capability is what [has_code_search]
    probes on the object: a callable [search_references] attribute. It is
    [True] for every MCP client and [False] for every direct client that
    [__init__] builds; the analyzer stores the answer when it is built
    ([False] without a client), and the analysis branches on that stored
    flag. *)
Theorem capability_flag_is_probed :
  (forall self : client,
     has_code_search self = true <->
     exists f, search_references self = Some (Method f))
  /\ (forall w use_cache claude_executable,
        has_code_search (GithubClientMCP.__init__ w use_cache claude_executable)
        = true)
  /\ (forall w github_token use_cache client,
        GithubClientDirect.__init__ w github_token use_cache = Py.Ok client ->
        has_code_search client = false)
  /\ (forall client use_cache,
        SectionAnalyzer.has_code_search
          (SectionAnalyzer.__init__ (Some client) use_cache)
        = has_code_search client)
  /\ (forall use_cache,
        SectionAnalyzer.has_code_search (SectionAnalyzer.__init__ None use_cache)
        = false)
  /\ (forall P (a1 a2 : SectionAnalyzer.analyzer) repo_files method
             max_section_size owner repo branch,
        SectionAnalyzer.has_code_search a1 = SectionAnalyzer.has_code_search a2 ->
        SectionAnalyzer.select_analysis P a1 repo_files method max_section_size
          owner repo branch
        = SectionAnalyzer.select_analysis P a2 repo_files method max_section_size
          owner repo branch).
Proof.
  split_and!.
  - apply has_code_search_spec.
  - apply mcp_has_code_search.
  - apply direct_has_no_code_search.
  - reflexivity.
  - reflexivity.
  - apply select_analysis_reads_flag.
Qed.

(** C9 as stated fails: no argument of the MCP client's constructor turns
    the flag off, and the answer follows the attribute the object has when
    it is asked. *)
Lemma capability_flag_not_set_at_construction :
  (forall use_cache claude_executable,
     has_code_search
       (GithubClientMCP.__init__ Sample.world use_cache claude_executable) = true)
  /\ has_code_search
       (set_search_references
          (GithubClientMCP.__init__ Sample.world true None) Data) = false
  /\ (exists client,
        GithubClientDirect.__init__ Sample.world (Some "token") true = Py.Ok client
        /\ has_code_search client = false
        /\ has_code_search
             (set_search_references client
                (Method (GithubClientMCP.search_references Sample.server)))
           = true).
Proof.
  split_and!; [reflexivity|reflexivity|].
  eexists. split_and!; reflexivity.
Qed.

End ClientFacts.

(** ** Code search and backlinks *)

Module SearchFacts.
Import Remote GithubClientMCP SpecWording.

Lemma slice_to_length {A} (n : Z) (l : list A) :
  0 <= n -> (length (slice_to n l) <= Z.to_nat n)%nat.
Proof.
  intros Hn. unfold slice_to. rewrite (proj2 (Z.ltb_ge _ _)) by lia.
  rewrite length_take. lia.
Qed.

(** [search_code] always returns: an exception inside gives [[]]. *)
Lemma search_code_returns server owner repo query max_results :
  exists items, search_code server owner repo query max_results = Py.Ok items.
Proof.
  unfold search_code.
  destruct (search_code_loop _ _ _ _ _ _ _) as [r|e]; simpl; eauto.
Qed.

Lemma search_code_capped server owner repo query max_results items :
  0 <= max_results ->
  search_code server owner repo query max_results = Py.Ok items ->
  (length items <= Z.to_nat max_results)%nat.
Proof.
  intros Hn. unfold search_code.
  destruct (search_code_loop _ _ _ _ _ _ _) as [r|e]; simpl.
  - intros [= <-]. by apply slice_to_length.
  - intros [= <-]. simpl. lia.
Qed.

(** The rounds of the loop never run out: any two round counts that are
    at least the room left in [results] give the same answer. *)
Lemma search_code_loop_fuel server query per_page max_results :
  forall fuel1 fuel2 page results,
    (Z.to_nat (max_results - Z.of_nat (length results)) <= fuel1)%nat ->
    (Z.to_nat (max_results - Z.of_nat (length results)) <= fuel2)%nat ->
    search_code_loop fuel1 server query page per_page max_results results
    = search_code_loop fuel2 server query page per_page max_results results.
Proof.
  induction fuel1 as [|fuel1 IH]; intros fuel2 page results H1 H2.
  - destruct fuel2 as [|fuel2]; [done|].
    cbn [search_code_loop].
    destruct (Z.of_nat (length results) <? max_results) eqn:E; [|done].
    apply Z.ltb_lt in E. lia.
  - destruct fuel2 as [|fuel2].
    + cbn [search_code_loop].
      destruct (Z.of_nat (length results) <? max_results) eqn:E; [|done].
      apply Z.ltb_lt in E. lia.
    + cbn [search_code_loop].
      destruct (Z.of_nat (length results) <? max_results) eqn:E; [|done].
      apply Z.ltb_lt in E.
      destruct (tool_search_code server query page per_page) as [response|e];
        [|done].
      cbn [Py.bind].
      destruct (default [] (cs_items response)) as [|it items] eqn:Eit; [done|].
      destruct (_ || _); [done|].
      apply IH; rewrite length_app; cbn [length]; lia.
Qed.

Lemma elem_of_add_references filepath search_results references x :
  x ∈ add_references filepath search_results references <->
  x ∈ references \/ (x <> Some filepath /\ x ∈ ci_path <$> search_results).
Proof.
  unfold add_references. revert references.
  induction search_results as [|item items IH]; intros references;
    cbn [fold_left fmap list_fmap].
  - split; [by left|]. intros [H|[_ H]]; [done|]. by apply elem_of_nil in H.
  - rewrite IH, elem_of_cons. destruct (decide (ci_path item = Some filepath)) as [Heq|Hne].
    + split.
      * intros [H|[Hx H]]; [by left|right; split; [done|by right]].
      * intros [H|[Hx [H|H]]]; [by left|congruence|right; done].
    + rewrite elem_of_union, elem_of_singleton. split.
      * intros [[->|H]|[Hx H]]; [right; split; [done|by left]|by left|].
        right. split; [done|by right].
      * intros [H|[Hx [->|H]]]; [left; by right|left; by left|right; done].
Qed.

Lemma size_add_references (filepath : string) (search_results : list code_item)
    (references : gset (option string)) :
  (size (add_references filepath search_results references)
   <= size references + length search_results)%nat.
Proof.
  unfold add_references. revert references.
  induction search_results as [|item items IH]; intros references;
    cbn [fold_left length]; [lia|].
  etrans; [apply IH|].
  destruct (decide (ci_path item = Some filepath)); [lia|].
  rewrite size_union_alt, size_singleton.
  assert (size (references ∖ {[ci_path item]}) <= size references)%nat
    by (apply subseteq_size, subseteq_difference_l; reflexivity).
  lia.
Qed.

Lemma search_references_fold server owner repo filepath :
  forall (queries : list string) (start : gset (option string)),
  exists references,
    fold_left (fun acc query =>
                 Py.bind acc (fun references =>
                 Py.bind (search_code server owner repo query default_max_results)
                   (fun search_results =>
                 Py.Ok (add_references filepath search_results references))))
              queries (Py.Ok start) = Py.Ok references
    /\ (forall x,
          x ∈ references <->
          x ∈ start \/
          (x <> Some filepath /\
           exists query items,
             query ∈ queries
             /\ search_code server owner repo query default_max_results = Py.Ok items
             /\ x ∈ ci_path <$> items))
    /\ (size references <= size start + 100 * length queries)%nat.
Proof.
  induction queries as [|q queries IH]; intros start; cbn [fold_left].
  - exists start. split_and!; [done| |lia].
    intros x. split; [by left|]. intros [H|(_ & q & items & Hq & _)]; [done|].
    by apply elem_of_nil in Hq.
  - destruct (search_code_returns server owner repo q default_max_results)
      as [items Hitems].
    pose proof (search_code_capped server owner repo q default_max_results
                  items ltac:(done) Hitems) as Hcap.
    change (Z.to_nat default_max_results) with 100%nat in Hcap.
    cbn [Py.bind]. rewrite Hitems. cbn [Py.bind].
    destruct (IH (add_references filepath items start)) as (R & HR & Hin & Hsz).
    exists R. split_and!; [done| |].
    + intros x. rewrite Hin, elem_of_add_references. split.
      * intros [[H|[Hx H]]|(Hx & q' & its & Hq' & Hs & H)].
        -- by left.
        -- right. split; [done|]. exists q, items. split_and!; [by left|done|done].
        -- right. split; [done|]. exists q', its. split_and!; [by right|done|done].
      * intros [H|(Hx & q' & its & Hq' & Hs & H)]; [left; by left|].
        apply elem_of_cons in Hq' as [->|Hq'].
        -- left. right. split; [done|]. congruence.
        -- right. split; [done|]. eauto.
    + pose proof (size_add_references filepath items start). cbn [length]. lia.
Qed.

Lemma backlink_queries_length filepath : (length (backlink_queries filepath) <= 3)%nat.
Proof.
  unfold backlink_queries. destruct (PyStr.splitext _) as [name ext].
  destruct (String.eqb ext ".py"); simpl; lia.
Qed.

Lemma backlink_queries_other filepath :
  (PyStr.splitext (PyStr.basename filepath)).2 <> ".py" ->
  backlink_queries filepath = [quoted (PyStr.basename filepath)].
Proof.
  unfold backlink_queries.
  destruct (PyStr.splitext (PyStr.basename filepath)) as [name ext]. cbn [snd].
  intros Hext. destruct (String.eqb ext ".py") eqn:E; [|done].
  by apply String.eqb_eq in E.
Qed.

(** The code's queries are the specification's whenever the file is not
    an [__init__.py] without a parent directory name. *)
Lemma backlink_queries_agree filepath :
  PyStr.basename filepath <> "__init__.py"
  \/ PyStr.basename (PyStr.dirname filepath) <> "" ->
  backlink_queries filepath = backlink_queries_spec filepath.
Proof.
  intros H. unfold backlink_queries, backlink_queries_spec.
  destruct (PyStr.splitext (PyStr.basename filepath)) as [name ext] eqn:Esplit.
  destruct (String.eqb ext ".py") eqn:Eext; [|done].
  destruct (String.eqb name "__init__") eqn:Ename; [|done].
  destruct (PyStr.basename (PyStr.dirname filepath)) as [|c dir] eqn:Edir; [|done].
  exfalso. destruct H as [H|H]; [|done]. apply H.
  apply String.eqb_eq in Eext as ->. apply String.eqb_eq in Ename as ->.
  clear -Esplit. revert Esplit. generalize (PyStr.basename filepath). intros f.
  unfold PyStr.splitext.
  destruct (_ && _) eqn:E; [|intros [= -> _]; done].
  intros [= Ht Hd]. rewrite <- (PyStrFacts.str_take_drop (Z.to_nat (PyStr.rfind f PyStr.extsep)) f).
  by rewrite Ht, Hd.
Qed.

(** C8, as the code has it. [search_references] returns the union, over
    the backlink queries of the file, of the paths that [search_code]
    found, the file itself left out. Each query's result list is cut at 100
    items before the union, so the result holds at most 100 items per
    query; there are at most three queries. The queries are those of the
    specification unless the file is an [__init__.py] with no parent
    directory name, whose module name stays [__init__]. *)
Theorem search_references_union server owner repo filepath :
  exists references,
    search_references server owner repo filepath = Py.Ok references
    /\ (forall x,
          x ∈ references <->
          x <> Some filepath /\
          exists query items,
            query ∈ backlink_queries filepath
            /\ search_code server owner repo query default_max_results = Py.Ok items
            /\ x ∈ ci_path <$> items)
    /\ (forall query,
          exists items,
            search_code server owner repo query default_max_results = Py.Ok items
            /\ (length items <= 100)%nat)
    /\ (size references <= 100 * length (backlink_queries filepath))%nat
    /\ (length (backlink_queries filepath) <= 3)%nat
    /\ ((PyStr.splitext (PyStr.basename filepath)).2 <> ".py" ->
        backlink_queries filepath = [quoted (PyStr.basename filepath)])
    /\ (PyStr.basename filepath <> "__init__.py"
         \/ PyStr.basename (PyStr.dirname filepath) <> "" ->
        backlink_queries filepath = backlink_queries_spec filepath).
Proof.
  destruct (search_references_fold server owner repo filepath
              (backlink_queries filepath) ∅) as (R & HR & Hin & Hsz).
  exists R. split_and!.
  - unfold search_references. by rewrite HR.
  - intros x. rewrite Hin. split.
    + intros [H|H]; [|done]. by apply not_elem_of_empty in H.
    + intros H. by right.
  - intros query.
    destruct (search_code_returns server owner repo query default_max_results)
      as [items Hitems].
    exists items. split; [done|].
    apply (search_code_capped server owner repo query default_max_results
             items ltac:(done) Hitems).
  - rewrite size_empty in Hsz. lia.
  - apply backlink_queries_length.
  - apply backlink_queries_other.
  - apply backlink_queries_agree.
Qed.

(** C8 as stated fails twice. The result is not cut at the item count of
    [search_code]: three queries that each find 100 paths give 300. And an
    [__init__.py] in the root is searched under the module name
    [__init__], not under its (empty) parent directory name. *)
Lemma search_references_not_capped :
  size <$> Py.returned (search_references Sample.server "o" "r" "pkg/mod.py")
  = Some 300%nat
  /\ default_max_results = 100
  /\ backlink_queries "__init__.py"
     = [quoted "__init__.py"; quoted "import __init__"; quoted "from __init__"]
  /\ backlink_queries_spec "__init__.py"
     = [quoted "__init__.py"; quoted "import "; quoted "from "].
Proof.
  split_and!; [vm_compute; reflexivity|reflexivity|reflexivity|reflexivity].
Qed.

Example queries_of_module :
  backlink_queries "pkg/sub/mod.py"
  = [quoted "mod.py"; quoted "import mod"; quoted "from mod"].
Proof. reflexivity. Qed.

Example queries_of_package :
  backlink_queries "pkg/sub/__init__.py"
  = [quoted "__init__.py"; quoted "import sub"; quoted "from sub"].
Proof. reflexivity. Qed.

Example queries_of_text_file : backlink_queries "docs/README.md" = [quoted "README.md"].
Proof. reflexivity. Qed.

End SearchFacts.

(** ** The merge pass of the specification *)

Module MergeFacts.
Import Cache SectionAnalyzer SpecModel.

Lemma length_set {V} k (v : V) d : (length d <= length (Py.set k v d))%nat.
Proof.
  induction d as [|[k' v'] d IH]; simpl; [lia|].
  destruct (String.eqb k' k); simpl; lia.
Qed.

Lemma size_fold_into small target : (size target <= size (fold_into small target))%nat.
Proof.
  unfold size, fold_into. cbn [snd].
  generalize (target.2). induction (small.2) as [|kv l IH]; intros d; simpl; [lia|].
  etrans; [|apply IH]. apply length_set.
Qed.

Lemma size_floorb_spec minSize sections :
  size_floorb minSize sections = true <-> size_floor minSize sections.
Proof.
  unfold size_floorb, size_floor.
  rewrite orb_true_iff, Nat.eqb_eq, forallb_forall, Forall_forall.
  split; (intros [H|H]; [by left|right]); intros s Hs.
  - apply Z.leb_le, H. by apply list_elem_of_In.
  - apply Z.leb_le, H. by apply list_elem_of_In.
Qed.

(** The pass ends with one section, or with every section at the bound. *)
Lemma merge_forward_floor minSize :
  forall sections pending kept,
    Forall (fun s => minSize <= Z.of_nat (size s)) kept ->
    size_floor minSize (merge_forward minSize pending sections kept).
Proof.
  induction sections as [|s rest IH]; intros pending kept Hkept;
    cbn [merge_forward].
  - destruct pending as [p|].
    + destruct kept as [|prev before].
      * by left.
      * right. apply Forall_reverse. inversion Hkept as [|? ? Hprev Hbefore]; subst.
        constructor; [|done].
        pose proof (size_fold_into p prev). lia.
    + right. by apply Forall_reverse.
  - destruct (Z.of_nat (size _) <? minSize) eqn:E.
    + by apply IH.
    + apply IH. constructor; [|done]. by apply Z.ltb_ge in E.
Qed.

Lemma mergeSmall_floor sections minSize : size_floor minSize (mergeSmall sections minSize).
Proof.
  unfold mergeSmall. destruct sections as [|s1 [|s2 rest]].
  - right. constructor.
  - by left.
  - by apply merge_forward_floor.
Qed.

Example merge_three_singletons :
  mergeSmall [("a", [("a.py", "1")]); ("b", [("b.py", "2")]); ("c", [("c.py", "3")])] 2
  = [("b", [("b.py", "2"); ("a.py", "1"); ("c.py", "3")])].
Proof. reflexivity. Qed.

Example merge_keeps_large :
  mergeSmall [("a", [("a.py", "1"); ("b.py", "2")]); ("c", [("c.py", "3")]);
              ("d", [("d.py", "4"); ("e.py", "5")])] 2
  = [("a", [("a.py", "1"); ("b.py", "2")]);
     ("d", [("d.py", "4"); ("e.py", "5"); ("c.py", "3")])].
Proof. reflexivity. Qed.

End MergeFacts.

(** ** [analyze_repository] *)

Module AnalyzerFacts.
Import Cache SectionAnalyzer SpecModel.

Lemma get_of_pairs {V} (l : list (string * V)) :
  (forall k v v', (k, v) ∈ l -> (k, v') ∈ l -> v = v') ->
  forall k v, Py.get (Py.of_pairs l) k = Some v <-> (k, v) ∈ l.
Proof.
  unfold Py.of_pairs. induction l as [|[k0 v0] l IH] using rev_ind; intros Hfun k v.
  - simpl. split; [done|]. intros H. by apply elem_of_nil in H.
  - rewrite fold_left_app. cbn [fold_left fst snd].
    assert (forall k v v', (k, v) ∈ l -> (k, v') ∈ l -> v = v') as Hfun'.
    { intros k' v1 v2 H1 H2. apply (Hfun k'); apply elem_of_app; by left. }
    destruct (decide (k0 = k)) as [->|Hne].
    + rewrite PyFacts.get_set_eq. split.
      * intros [= ->]. apply elem_of_app. right. apply list_elem_of_here.
      * intros H. f_equal. apply (Hfun k); [|done].
        apply elem_of_app. right. apply list_elem_of_here.
    + rewrite PyFacts.get_set_ne by done. rewrite (IH Hfun').
      rewrite elem_of_app, list_elem_of_singleton. split; [by left|].
      intros [H|[= -> ->]]; [done|congruence].
Qed.

(** The files of a replayed section: the stored paths that are keys of the
    current file map, each with its current content. *)
Lemma section_files_of_get repo_files file_paths path content :
  Py.get (section_files_of repo_files file_paths) path = Some content <->
  path ∈ file_paths /\ Py.get repo_files path = Some content.
Proof.
  unfold section_files_of.
  assert (forall p c,
            (p, c) ∈ omap (fun path => (fun content => (path, content))
                                        <$> Py.get repo_files path) file_paths
            <-> p ∈ file_paths /\ Py.get repo_files p = Some c) as Hin.
  { intros p c. rewrite list_elem_of_omap. split.
    - intros (q & Hq & Heq). destruct (Py.get repo_files q) eqn:E; [|done].
      simpl in Heq. injection Heq as <- <-. done.
    - intros [Hp Hc]. exists p. split; [done|]. by rewrite Hc. }
  rewrite get_of_pairs; [apply Hin|].
  intros k v v' H1 H2. apply Hin in H1 as [_ H1], H2 as [_ H2]. congruence.
Qed.

Lemma elem_of_cached_sections_of repo_files cached_sections section_name files :
  (section_name, files) ∈ cached_sections_of repo_files cached_sections ->
  exists file_paths,
    (section_name, file_paths) ∈ cached_sections
    /\ files = section_files_of repo_files file_paths.
Proof.
  unfold cached_sections_of.
  assert (forall acc : list section,
            (section_name, files)
              ∈ fold_left (fun sections '(section_name, file_paths) =>
                             match section_files_of repo_files file_paths with
                             | [] => sections
                             | section_files =>
                                 sections ++ [(section_name, section_files)]
                             end) cached_sections acc ->
            (section_name, files) ∈ acc \/
            exists file_paths,
              (section_name, file_paths) ∈ cached_sections
              /\ files = section_files_of repo_files file_paths) as H.
  { induction cached_sections as [|[n ps] rest IH]; intros acc; cbn [fold_left].
    - by left.
    - intros Hin. apply IH in Hin as [Hin|(ps' & Hps & ->)].
      + destruct (section_files_of repo_files ps) as [|kv fs] eqn:E; [by left|].
        apply elem_of_app in Hin as [Hin|Hin]; [by left|].
        apply list_elem_of_singleton in Hin. injection Hin as -> ->.
        right. exists ps. split; [apply list_elem_of_here|done].
      + right. exists ps'. split; [by apply list_elem_of_further|done]. }
  intros Hin. apply H in Hin as [Hin|Hin]; [|done]. by apply elem_of_nil in Hin.
Qed.

Lemma same_file_set_spec repo_files s :
  same_file_set repo_files s = true <->
  forall path, path ∈ Py.keys repo_files <-> path ∈ default [] (st_files s).
Proof.
  unfold same_file_set. rewrite bool_decide_eq_true, set_eq.
  by setoid_rewrite elem_of_list_to_set.
Qed.

Section Runs.
Context {C : Type} {cache_ops : RepoCache C}.
Context (P : Strategies) (self : analyzer).

(** The sections a run returns when it does not replay the cache. *)
Lemma sections_of_run (Q : Strategies)
    (repo_files : Py.dict string) (method : AnalysisMethod)
    (max_section_size min_section_size : Z) (owner repo branch : option string)
    (st : state C) :
  cached_structure_sections self repo_files method owner repo branch (cache st)
  = None ->
  (analyze_repository Q self repo_files method max_section_size
     min_section_size owner repo branch st).1
  = if min_section_size >? 1
    then _merge_small_sections Q
           (select_analysis Q self repo_files method max_section_size
              owner repo branch).1
           min_section_size
    else (select_analysis Q self repo_files method max_section_size
            owner repo branch).1.
Proof.
  intros Hmiss. unfold analyze_repository. rewrite Hmiss.
  destruct (select_analysis _ _ _ _ _ _ _ _) as [sections called].
  by destruct (min_section_size >? 1).
Qed.

(** The cache such a run leaves: the last block applied to what it
    returns. *)
Lemma cache_of_run (Q : Strategies)
    (repo_files : Py.dict string) (method : AnalysisMethod)
    (max_section_size min_section_size : Z) (owner repo branch : option string)
    (st : state C) :
  cached_structure_sections self repo_files method owner repo branch (cache st)
  = None ->
  cache (analyze_repository Q self repo_files method max_section_size
           min_section_size owner repo branch st).2
  = cache_sections self
      (analyze_repository Q self repo_files method max_section_size
         min_section_size owner repo branch st).1
      repo_files method owner repo branch (cache st).
Proof.
  intros Hmiss. unfold analyze_repository. rewrite Hmiss.
  destruct (select_analysis _ _ _ _ _ _ _ _) as [sections called].
  by destruct (min_section_size >? 1).
Qed.

(** The structure record that the run builds is not what it stores: the
    cache method is handed the file map. *)
Lemma structure_cache_gets_file_map
    (sections : list section) (repo_files : Py.dict string)
    (method : AnalysisMethod) (owner repo : string) (branch : option string)
    (c : C) :
  Py.truthy_str (Some owner) = true ->
  Py.truthy_str (Some repo) = true ->
  use_cache self = true ->
  cache_sections self sections repo_files method (Some owner) (Some repo) branch c
  = save_repo_metadata
      (update_structure_cache c owner repo repo_files branch) owner repo
      (metadata_of sections method
         (get_repo_metadata (update_structure_cache c owner repo repo_files branch)
            owner repo branch))
      branch.
Proof.
  intros Ho Hr Hc. unfold cache_sections. by rewrite Hc, Ho, Hr.
Qed.

(** The refinement loop calls [_group_by_dependencies] and nothing else. *)
Lemma refine_large_sections_calls (Q : Strategies) (max_section_size : Z)
    (dependencies : Py.dict (gset string)) (structural : list section) (k : call) :
  In k (refine_large_sections Q max_section_size dependencies structural).2 ->
  k = CallGroupByDependencies.
Proof.
  unfold refine_large_sections.
  match goal with
  | |- In _ (fold_left ?f _ _).2 -> _ =>
      assert (forall l acc,
                (forall c, In c acc.2 -> c = CallGroupByDependencies) ->
                forall c, In c (fold_left f l acc).2 ->
                          c = CallGroupByDependencies) as Hinv
  end.
  { induction l as [|[section_name files] l IH]; intros [sections called] Hacc;
      [exact Hacc|].
    cbn [fold_left]. apply IH.
    destruct (Z.of_nat (length files) >? max_section_size);
      cbn [snd] in *; [|exact Hacc].
    intros c Hc. apply in_app_or in Hc as [Hc|Hc]; [by apply Hacc|].
    destruct Hc as [<-|[]]. reflexivity. }
  apply Hinv. intros c [].
Qed.

(** The choice of the method never runs the merge pass. *)
Lemma select_analysis_no_merge (Q : Strategies)
    (repo_files : Py.dict string) (method : AnalysisMethod)
    (max_section_size : Z) (owner repo branch : option string) :
  CallMergeSmallSections
    ∉ (select_analysis Q self repo_files method max_section_size
         owner repo branch).2.
Proof.
  rewrite list_elem_of_In. unfold select_analysis.
  destruct method;
    destruct (has_code_search self && Py.truthy_str owner && Py.truthy_str repo);
    cbn [snd In]; try (intros [Hin|[]]; discriminate).
  pose proof (refine_large_sections_calls Q max_section_size
                (_extract_enhanced_dependencies Q repo_files
                   (default EmptyString owner) (default EmptyString repo))
                (structural_analysis Q repo_files max_section_size)
                CallMergeSmallSections) as Hcalls.
  destruct (refine_large_sections _ _ _ _) as [sections called].
  cbn [snd app In] in *. intros [Hin|[Hin|Hin]]; [discriminate|discriminate|].
  apply Hcalls in Hin. discriminate.
Qed.

(** C1, as the code has it. With caching on, an owner and a repository
    name given and the method DEPENDENCY or HYBRID, a stored structure
    record whose file list is the key set of the file map and whose
    sections give at least one section with a current file is replayed: the
    run returns the stored sections with the content of the current file
    map, calls none of the partition methods and leaves the cache as it
    was. *)
Theorem cache_replay_skips_partition
    (repo_files : Py.dict string) (method : AnalysisMethod)
    (max_section_size min_section_size : Z) (owner repo branch : option string)
    (st : state C) (s : structure) (cached_sections : Py.dict (list string)) :
  use_cache self = true ->
  Py.truthy_str owner = true ->
  Py.truthy_str repo = true ->
  uses_structure_cache method = true ->
  get_repo_structure (cache st) (default EmptyString owner)
                     (default EmptyString repo) branch = Some s ->
  (forall path, path ∈ Py.keys repo_files <-> path ∈ default [] (st_files s)) ->
  st_sections s = Some cached_sections ->
  cached_sections_of repo_files cached_sections <> [] ->
  analyze_repository P self repo_files method max_section_size min_section_size
    owner repo branch st
  = (cached_sections_of repo_files cached_sections, st)
  /\ forall section_name files,
       (section_name, files) ∈ cached_sections_of repo_files cached_sections ->
       exists file_paths,
         (section_name, file_paths) ∈ cached_sections
         /\ forall path content,
              Py.get files path = Some content <->
              path ∈ file_paths /\ Py.get repo_files path = Some content.
Proof.
  intros Hcache Howner Hrepo Hmethod Hget Hfiles Hsections Hnonempty. split.
  - unfold analyze_repository, cached_structure_sections.
    rewrite Hcache, Howner, Hrepo, Hmethod, Hget. cbn [andb].
    assert (structure_truthy s = true) as ->.
    { unfold structure_truthy. by rewrite Hsections. }
    rewrite (proj2 (same_file_set_spec repo_files s) Hfiles).
    rewrite Hsections.
    change (default [] (Some cached_sections)) with cached_sections.
    destruct cached_sections as [|cs rest]; [done|]. cbv beta iota.
    destruct (cached_sections_of repo_files (cs :: rest)); [congruence|done].
  - intros section_name files Hin.
    apply elem_of_cached_sections_of in Hin as (file_paths & Hin & ->).
    exists file_paths. split; [done|]. intros path content.
    apply section_files_of_get.
Qed.

(** C2, as the code has it, with the merge pass of the specification. A
    run that does not replay the cache applies the merge pass to the
    sections of the chosen method when [min_section_size > 1], whatever the
    method, and returns those sections as they are when
    [min_section_size <= 1], where no merge pass runs. Every returned
    section then has at least [min_section_size] files unless exactly one
    section is returned; for [min_section_size = 1] this rests on the
    chosen method, which has to return no section without files. A run
    that replays the cache returns the stored sections, without a merge
    pass. *)
Theorem merge_pass_enforces_floor
    (repo_files : Py.dict string) (method : AnalysisMethod)
    (max_section_size min_section_size : Z) (owner repo branch : option string)
    (st : state C) :
  (cached_structure_sections self repo_files method owner repo branch (cache st)
   = None ->
   (1 < min_section_size ->
    (analyze_repository (with_spec_merge P) self repo_files method
       max_section_size min_section_size owner repo branch st).1
    = mergeSmall
        (select_analysis (with_spec_merge P) self repo_files method
           max_section_size owner repo branch).1
        min_section_size)
   /\ (min_section_size <= 1 ->
       (analyze_repository (with_spec_merge P) self repo_files method
          max_section_size min_section_size owner repo branch st).1
       = (select_analysis (with_spec_merge P) self repo_files method
            max_section_size owner repo branch).1)
   /\ ((min_section_size = 1 ->
        Forall (fun s : section => s.2 <> [])
               (select_analysis (with_spec_merge P) self repo_files method
                  max_section_size owner repo branch).1) ->
       size_floor min_section_size
         (analyze_repository (with_spec_merge P) self repo_files method
            max_section_size min_section_size owner repo branch st).1)
   /\ calls (analyze_repository (with_spec_merge P) self repo_files method
               max_section_size min_section_size owner repo branch st).2
      = calls st
        ++ (select_analysis (with_spec_merge P) self repo_files method
              max_section_size owner repo branch).2
        ++ (if min_section_size >? 1 then [CallMergeSmallSections] else [])
   /\ CallMergeSmallSections
        ∉ (select_analysis (with_spec_merge P) self repo_files method
             max_section_size owner repo branch).2)
  /\ (forall sections,
        cached_structure_sections self repo_files method owner repo branch
          (cache st) = Some sections ->
        analyze_repository (with_spec_merge P) self repo_files method
          max_section_size min_section_size owner repo branch st
        = (sections, st)).
Proof.
  split.
  - intros Hmiss.
    pose proof (sections_of_run (with_spec_merge P) repo_files method
                  max_section_size min_section_size owner repo branch st Hmiss)
      as Heq.
    split_and!.
    + intros H. rewrite Heq. by rewrite (proj2 (Z.gtb_lt _ _)) by lia.
    + intros H. rewrite Heq.
      destruct (min_section_size >? 1) eqn:E; [|done].
      apply Z.gtb_lt in E. lia.
    + intros Hfiles. rewrite Heq. destruct (min_section_size >? 1) eqn:E.
      * apply MergeFacts.mergeSmall_floor.
      * right. rewrite Z.gtb_ltb in E. apply Z.ltb_ge in E.
        destruct (decide (min_section_size = 1)) as [->|Hne].
        -- eapply Forall_impl; [exact (Hfiles eq_refl)|].
           intros [section_name files] Hfile. unfold size. cbn [snd] in *.
           destruct files; [done|]. cbn [length]. lia.
        -- apply Forall_forall. intros s _. lia.
    + unfold analyze_repository. rewrite Hmiss.
      destruct (select_analysis _ _ _ _ _ _ _ _) as [sections called].
      destruct (min_section_size >? 1); cbn [snd calls]; [done|].
      by rewrite app_nil_r.
    + apply select_analysis_no_merge.
  - intros sections Hhit. unfold analyze_repository. by rewrite Hhit.
Qed.

(** C3, as the code has it. A run with caching on and an owner and a
    repository name given, which does not replay the cache, ends by saving,
    under [(owner, repo, branch)], a metadata record with the section
    count, the method name and the size of each returned section. A run
    without caching, without an owner or without a repository name, and a
    run that replays the cache, leave the cache as it was. *)
Theorem run_persists_metadata
    (repo_files : Py.dict string) (method : AnalysisMethod)
    (max_section_size min_section_size : Z) (owner repo branch : option string)
    (st : state C) :
  (use_cache self = true ->
   Py.truthy_str owner = true ->
   Py.truthy_str repo = true ->
   cached_structure_sections self repo_files method owner repo branch (cache st)
   = None ->
   exists c1 metadata,
     cache (analyze_repository P self repo_files method max_section_size
              min_section_size owner repo branch st).2
     = save_repo_metadata c1 (default EmptyString owner)
         (default EmptyString repo) metadata branch
     /\ md_section_count metadata
        = Some (length (analyze_repository P self repo_files method
                          max_section_size min_section_size owner repo branch st).1)
     /\ md_section_method metadata = Some (name method)
     /\ md_sections metadata
        = Some (section_sizes
                  (analyze_repository P self repo_files method max_section_size
                     min_section_size owner repo branch st).1))
  /\ (use_cache self && Py.truthy_str owner && Py.truthy_str repo = false ->
      cache (analyze_repository P self repo_files method max_section_size
               min_section_size owner repo branch st).2
      = cache st)
  /\ (forall sections,
        cached_structure_sections self repo_files method owner repo branch
          (cache st) = Some sections ->
        cache (analyze_repository P self repo_files method max_section_size
                 min_section_size owner repo branch st).2
        = cache st).
Proof.
  split_and!.
  - intros Hcache Howner Hrepo Hmiss.
    rewrite (cache_of_run P repo_files method max_section_size min_section_size
               owner repo branch st Hmiss).
    unfold cache_sections. rewrite Hcache, Howner, Hrepo. cbn [andb].
    eexists _, _. split_and!; [reflexivity|done|done|done].
  - intros Hoff. unfold analyze_repository.
    destruct (cached_structure_sections _ _ _ _ _ _ _); [done|].
    destruct (select_analysis _ _ _ _ _ _ _ _) as [sections called].
    destruct (if min_section_size >? 1
              then (_merge_small_sections P sections min_section_size,
                    called ++ [CallMergeSmallSections])
              else (sections, called)) as [sections' called'].
    cbn [fst snd cache]. unfold cache_sections. by rewrite Hoff.
  - intros sections Hhit. unfold analyze_repository. by rewrite Hhit.
Qed.

End Runs.

Lemma cache_replay_skips_partition_witness :
  analyze_repository Sample.strategies Sample.caching_analyzer Sample.files
    DEPENDENCY 15 2 (Some "o") (Some "r") None (Sample.start Sample.stored)
  = (cached_sections_of Sample.files
       [("first", ["a.py"]); ("second", ["b.py"])],
     Sample.start Sample.stored)
  /\ forall section_name files,
       (section_name, files)
         ∈ cached_sections_of Sample.files
             [("first", ["a.py"]); ("second", ["b.py"])] ->
       exists file_paths,
         (section_name, file_paths) ∈ [("first", ["a.py"]); ("second", ["b.py"])]
         /\ forall path content,
              Py.get files path = Some content <->
              path ∈ file_paths /\ Py.get Sample.files path = Some content.
Proof.
  apply (cache_replay_skips_partition (cache_ops := memory_cache)
           Sample.strategies Sample.caching_analyzer Sample.files DEPENDENCY
           15 2 (Some "o") (Some "r") None (Sample.start Sample.stored)
           Sample.stored_structure).
  - reflexivity.
  - reflexivity.
  - reflexivity.
  - reflexivity.
  - reflexivity.
  - apply same_file_set_spec. vm_compute. reflexivity.
  - reflexivity.
  - vm_compute. discriminate.
Defined.

(** The replay of the sample store, spelled out. *)
Example replay_of_sample_store :
  analyze_repository Sample.strategies Sample.caching_analyzer Sample.files
    DEPENDENCY 15 2 (Some "o") (Some "r") None (Sample.start Sample.stored)
  = ([("first", [("a.py", "x")]); ("second", [("b.py", "y")])],
     Sample.start Sample.stored).
Proof. vm_compute. reflexivity. Qed.

(** C1 as stated fails for the structural method: the stored record
    matches the file map, and the run still calls [structural_analysis]. *)
Lemma structural_method_ignores_cache :
  get_repo_structure Sample.stored "o" "r" None = Some Sample.stored_structure
  /\ same_file_set Sample.files Sample.stored_structure = true
  /\ (analyze_repository Sample.strategies Sample.caching_analyzer Sample.files
        STRUCTURAL 15 2 (Some "o") (Some "r") None (Sample.start Sample.stored)).1
     = [("root", Sample.files)]
  /\ calls (analyze_repository Sample.strategies Sample.caching_analyzer
              Sample.files STRUCTURAL 15 2 (Some "o") (Some "r") None
              (Sample.start Sample.stored)).2
     = [CallStructural; CallMergeSmallSections].
Proof. split_and!; vm_compute; reflexivity. Qed.

Lemma merge_pass_enforces_floor_witness :
  size_floor 2
    (analyze_repository (with_spec_merge Sample.per_file)
       Sample.plain_analyzer Sample.five_files STRUCTURAL 15 2
       (Some "o") (Some "r") None (Sample.start empty_store)).1
  /\ (analyze_repository (with_spec_merge Sample.per_file)
        Sample.plain_analyzer Sample.five_files STRUCTURAL 15 1
        (Some "o") (Some "r") None (Sample.start empty_store)).1
     = (select_analysis (with_spec_merge Sample.per_file)
          Sample.plain_analyzer Sample.five_files STRUCTURAL 15
          (Some "o") (Some "r") None).1
  /\ size_floor 1
       (analyze_repository (with_spec_merge Sample.per_file)
          Sample.plain_analyzer Sample.five_files STRUCTURAL 15 1
          (Some "o") (Some "r") None (Sample.start empty_store)).1.
Proof.
  split_and!.
  - apply (merge_pass_enforces_floor (cache_ops := memory_cache)
             Sample.per_file Sample.plain_analyzer Sample.five_files STRUCTURAL
             15 2 (Some "o") (Some "r") None (Sample.start empty_store)).
    + reflexivity.
    + intros H. lia.
  - apply (merge_pass_enforces_floor (cache_ops := memory_cache)
             Sample.per_file Sample.plain_analyzer Sample.five_files STRUCTURAL
             15 1 (Some "o") (Some "r") None (Sample.start empty_store)).
    + reflexivity.
    + lia.
  - apply (merge_pass_enforces_floor (cache_ops := memory_cache)
             Sample.per_file Sample.plain_analyzer Sample.five_files STRUCTURAL
             15 1 (Some "o") (Some "r") None (Sample.start empty_store)).
    + reflexivity.
    + intros _. vm_compute. repeat constructor; discriminate.
Defined.

(** Five one-file sections kept as they are under a floor of one, where no
    merge pass runs. *)
Example five_files_under_floor_one :
  analyze_repository (with_spec_merge Sample.per_file) Sample.plain_analyzer
    Sample.five_files STRUCTURAL 15 1 (Some "o") (Some "r") None
    (Sample.start empty_store)
  = ([("a.py", [("a.py", "1")]); ("b.py", [("b.py", "2")]);
      ("c.py", [("c.py", "3")]); ("d.py", [("d.py", "4")]);
      ("e.py", [("e.py", "5")])],
     {| cache := empty_store; calls := [CallStructural] |}).
Proof. vm_compute. reflexivity. Qed.

(** The floor of one rests on the chosen method: a section without files
    that the method returns comes back as it is, since no merge pass runs,
    while the merge pass of a floor of two folds it away. *)
Example empty_section_survives_floor_one :
  (analyze_repository (with_spec_merge Examples.with_empty_section)
     Sample.plain_analyzer Sample.files STRUCTURAL 15 1 (Some "o") (Some "r")
     None (Sample.start empty_store)).1
  = [("root", Sample.files); ("empty", [])]
  /\ size_floorb 1
       (analyze_repository (with_spec_merge Examples.with_empty_section)
          Sample.plain_analyzer Sample.files STRUCTURAL 15 1 (Some "o")
          (Some "r") None (Sample.start empty_store)).1
     = false
  /\ (analyze_repository (with_spec_merge Examples.with_empty_section)
        Sample.plain_analyzer Sample.files STRUCTURAL 15 2 (Some "o") (Some "r")
        None (Sample.start empty_store)).1
     = [("root", Sample.files)].
Proof. split_and!; vm_compute; reflexivity. Qed.

(** Five one-file sections merged under a floor of two. *)
Example merge_of_five_files :
  (analyze_repository (with_spec_merge Sample.per_file) Sample.plain_analyzer
     Sample.five_files STRUCTURAL 15 2 (Some "o") (Some "r") None
     (Sample.start empty_store)).1
  = [("b.py", [("b.py", "2"); ("a.py", "1")]);
     ("d.py", [("d.py", "4"); ("c.py", "3"); ("e.py", "5")])].
Proof. vm_compute. reflexivity. Qed.

(** C2 as stated fails on a replay: the stored sections come back as they
    are, two sections of one file each under a floor of two. *)
Lemma cache_replay_skips_merge_pass :
  (analyze_repository Sample.strategies Sample.caching_analyzer Sample.files
     DEPENDENCY 15 2 (Some "o") (Some "r") None (Sample.start Sample.stored)).1
  = [("first", [("a.py", "x")]); ("second", [("b.py", "y")])]
  /\ size_floorb 2
       (analyze_repository Sample.strategies Sample.caching_analyzer
          Sample.files DEPENDENCY 15 2 (Some "o") (Some "r") None
          (Sample.start Sample.stored)).1
     = false
  /\ calls (analyze_repository Sample.strategies Sample.caching_analyzer
              Sample.files DEPENDENCY 15 2 (Some "o") (Some "r") None
              (Sample.start Sample.stored)).2
     = [].
Proof. split_and!; vm_compute; reflexivity. Qed.

Lemma run_persists_metadata_witness :
  exists c1 metadata,
    cache (analyze_repository Sample.per_file Sample.caching_analyzer
             Sample.five_files HYBRID 15 2 (Some "o") (Some "r") None
             (Sample.start empty_store)).2
    = save_repo_metadata c1 "o" "r" metadata None
    /\ md_section_count metadata
       = Some (length (analyze_repository Sample.per_file Sample.caching_analyzer
                         Sample.five_files HYBRID 15 2 (Some "o") (Some "r") None
                         (Sample.start empty_store)).1)
    /\ md_section_method metadata = Some (name HYBRID)
    /\ md_sections metadata
       = Some (section_sizes
                 (analyze_repository Sample.per_file Sample.caching_analyzer
                    Sample.five_files HYBRID 15 2 (Some "o") (Some "r") None
                    (Sample.start empty_store)).1).
Proof.
  apply (proj1 (run_persists_metadata (cache_ops := memory_cache)
                  Sample.per_file Sample.caching_analyzer Sample.five_files
                  HYBRID 15 2 (Some "o") (Some "r") None
                  (Sample.start empty_store))).
  - reflexivity.
  - reflexivity.
  - reflexivity.
  - reflexivity.
Defined.

(** What the sample run leaves in the store. *)
Example metadata_after_run :
  get_repo_metadata
    (cache (analyze_repository Sample.per_file Sample.caching_analyzer
              Sample.five_files HYBRID 15 2 (Some "o") (Some "r") None
              (Sample.start empty_store)).2)
    "o" "r" None
  = Some {| md_section_count := Some 2%nat;
            md_section_method := Some "HYBRID";
            md_sections := Some [("b.py", 2%nat); ("d.py", 3%nat)];
            md_rest := [] |}.
Proof. vm_compute. reflexivity. Qed.

(** C3 as stated fails without caching: the run writes nothing, and the
    store holds neither record afterwards. *)
Lemma run_without_cache_persists_nothing :
  cache (analyze_repository Sample.per_file Sample.plain_analyzer
           Sample.five_files HYBRID 15 2 (Some "o") (Some "r") None
           (Sample.start empty_store)).2
  = empty_store
  /\ get_repo_metadata
       (cache (analyze_repository Sample.per_file Sample.plain_analyzer
                 Sample.five_files HYBRID 15 2 (Some "o") (Some "r") None
                 (Sample.start empty_store)).2)
       "o" "r" None
     = None
  /\ get_repo_structure
       (cache (analyze_repository Sample.per_file Sample.plain_analyzer
                 Sample.five_files HYBRID 15 2 (Some "o") (Some "r") None
                 (Sample.start empty_store)).2)
       "o" "r" None
     = None.
Proof. split_and!; vm_compute; reflexivity. Qed.

End AnalyzerFacts.

(** ** The traversal of [get_repository_structure] *)

Module TraversalFacts.
Import Remote GithubClientBase Traversal.

Section Walk.
Context (self : client) (owner repo branch : string).
Context (ignore_dirs : list string) (max_file_size : Z).
Context (include_patterns extensions : option (list string)).

Local Abbreviation collect fuel :=
  (collect_file_paths self owner repo fuel branch ignore_dirs max_file_size
     include_patterns extensions).
Local Abbreviation each descend :=
  (each_item descend ignore_dirs max_file_size include_patterns extensions).
Local Abbreviation ok :=
  (collectable self owner repo branch ignore_dirs max_file_size
     include_patterns extensions).

Lemma collect_file_paths_step fuel path st :
  collect (S fuel) path st
  = if decide (path ∈ st.1) then Some st
    else
      match list_repository_files self owner repo path (Some branch) with
      | Py.Raise _ => Some ({[path]} ∪ st.1, st.2)
      | Py.Ok items => each (collect fuel) items ({[path]} ∪ st.1, st.2)
      end.
Proof. reflexivity. Qed.

Local Abbreviation extends := (Traversal.extends ok).

Lemma extends_refl st : extends st st.
Proof. split; [done|]. exists []. by rewrite app_nil_r. Qed.

Lemma extends_trans st1 st2 st3 : extends st1 st2 -> extends st2 st3 -> extends st1 st3.
Proof.
  intros [H1 (n1 & E1 & F1)] [H2 (n2 & E2 & F2)]. split; [set_solver|].
  exists (n1 ++ n2). split; [by rewrite E2, E1, app_assoc|by apply Forall_app].
Qed.

Lemma each_item_extends descend dir all :
  list_repository_files self owner repo dir (Some branch) = Py.Ok all ->
  (forall p st st', descend p st = Some st' -> extends st st') ->
  forall items st st',
    items ⊆ all -> each descend items st = Some st' -> extends st st'.
Proof.
  intros Hlist Hdesc. induction items as [|it rest IH]; intros st st' Hsub H.
  - injection H as <-. apply extends_refl.
  - assert (rest ⊆ all) as Hrest by set_solver.
    cbn [each_item] in H.
    destruct (any_in (item_path it) ignore_dirs) eqn:Hig; [by apply IH|].
    destruct (item_kind it) eqn:Hkind.
    + destruct (item_size it >? max_file_size) eqn:Hsize; [by apply IH|].
      destruct (should_include_file extensions include_patterns (item_path it))
        eqn:Hinc; cbn [negb] in H; [|by apply IH].
      eapply extends_trans; [|by apply (IH _ _ Hrest H)].
      split; [done|]. exists [item_path it]. split; [done|].
      constructor; [|done]. split_and!; [done|done|].
      exists dir, all, it. split_and!; [done|set_solver|done|done|].
      rewrite Z.gtb_ltb in Hsize. apply Z.ltb_ge in Hsize. lia.
    + destruct (descend (item_path it) st) as [st1|] eqn:Hd; [|done].
      eapply extends_trans; [by apply Hdesc in Hd|by apply IH].
Qed.

Lemma collect_file_paths_extends fuel :
  forall path st st', collect fuel path st = Some st' -> extends st st'.
Proof.
  induction fuel as [|fuel IH]; intros path st st' H; [done|].
  rewrite collect_file_paths_step in H.
  destruct (decide (path ∈ st.1)).
  - injection H as <-. apply extends_refl.
  - assert (extends st ({[path]} ∪ st.1, st.2)) as Hfirst.
    { split; [set_solver|]. exists []. by rewrite app_nil_r. }
    destruct (list_repository_files self owner repo path (Some branch))
      as [items|e] eqn:Hlist.
    + eapply extends_trans; [done|].
      by eapply (each_item_extends _ path items Hlist IH items).
    + by injection H as <-.
Qed.

Lemma each_item_more descend descend' :
  (forall p st st', descend p st = Some st' -> descend' p st = Some st') ->
  forall items st st',
    each descend items st = Some st' -> each descend' items st = Some st'.
Proof.
  intros Hd. induction items as [|it rest IH]; intros st st' H; [done|].
  cbn [each_item] in *.
  destruct (any_in (item_path it) ignore_dirs); [by apply IH|].
  destruct (item_kind it).
  - destruct (item_size it >? max_file_size); [by apply IH|].
    destruct (negb _); by apply IH.
  - destruct (descend (item_path it) st) as [st1|] eqn:E; [|done].
    rewrite (Hd _ _ _ E). by apply IH.
Qed.

Lemma collect_file_paths_S fuel :
  forall path st st',
    collect fuel path st = Some st' -> collect (S fuel) path st = Some st'.
Proof.
  induction fuel as [|fuel IH]; intros path st st' H; [done|].
  rewrite collect_file_paths_step in *.
  destruct (decide (path ∈ st.1)); [done|].
  destruct (list_repository_files self owner repo path (Some branch)); [|done].
  by apply (each_item_more (collect fuel)).
Qed.

Lemma collect_file_paths_more fuel fuel' path st st' :
  (fuel <= fuel')%nat ->
  collect fuel path st = Some st' -> collect fuel' path st = Some st'.
Proof.
  induction 1 as [|fuel' Hle IH]; [done|].
  intros H. by apply collect_file_paths_S, IH.
Qed.

End Walk.
End TraversalFacts.

(** ** [get_repository_structure] as a whole *)

Module StructureFacts.
Import Remote Cache GithubClientBase Traversal TraversalFacts FetchFacts.

Lemma fold_set_wf (f : string -> Py.result string) (l : list string) (d : Py.dict string) :
  Py.wf d ->
  Py.wf (fold_left (fun result p =>
                      match f p with
                      | Py.Ok content => Py.set p content result
                      | Py.Raise _ => result
                      end) l d).
Proof.
  revert d. induction l as [|p l IH]; intros d Hd; cbn [fold_left]; [done|].
  apply IH. destruct (f p); [by apply PyFacts.wf_set|done].
Qed.

Lemma fetch_batches_wf self as_completed owner repo branch bs d :
  Py.wf d ->
  Py.wf (fold_left (fun result batch =>
                      fetch_batch self as_completed owner repo branch batch result)
                   bs d).
Proof.
  revert d. induction bs as [|b bs IH]; intros d Hd; cbn [fold_left]; [done|].
  apply IH. unfold fetch_batch. by apply fold_set_wf.
Qed.

Lemma fetch_all_wf self as_completed owner repo branch paths batch_size max_workers result :
  fetch_all self as_completed owner repo branch paths batch_size max_workers
  = Py.Ok result ->
  Py.wf result.
Proof.
  unfold fetch_all.
  destruct (batch_size =? 0); [done|].
  destruct (batch_size <? 0); [intros [= <-]; apply NoDup_nil_2|].
  destruct (batches _ _ _) as [|b bs]; [intros [= <-]; apply NoDup_nil_2|].
  destruct (max_workers <=? 0); [done|].
  intros [= <-].
  apply (fetch_batches_wf self as_completed owner repo branch (b :: bs) []).
  apply NoDup_nil_2.
Qed.

Lemma fetch_all_keys self as_completed owner repo branch paths batch_size max_workers result :
  (forall batch, as_completed batch ≡ₚ batch) ->
  fetch_all self as_completed owner repo branch paths batch_size max_workers
  = Py.Ok result ->
  forall path, path ∈ Py.keys result ->
    path ∈ paths
    /\ get_file_content self owner repo path (Some branch)
       = Py.Ok (default EmptyString (Py.get result path)).
Proof.
  intros Hperm Hres path Hin.
  assert (Py.get result path <> None) as Hsome.
  { intros Hnone. by apply PyFacts.get_None_keys in Hnone. }
  revert Hres Hsome. unfold fetch_all.
  destruct (batch_size =? 0) eqn:E0; [done|].
  destruct (batch_size <? 0) eqn:Eneg; [by intros [= <-]|].
  apply Z.eqb_neq in E0. apply Z.ltb_ge in Eneg.
  pose proof (batches_concat (length paths) (Z.to_nat batch_size) paths
                ltac:(lia) ltac:(lia)) as Hcat.
  destruct (batches _ _ _) as [|b bs]; [by intros [= <-]|].
  destruct (max_workers <=? 0); [done|].
  match goal with
  | |- Py.Ok ?t = _ -> _ => intros Hres; assert (result = t) as -> by congruence
  end.
  rewrite (fetch_batches_get self as_completed owner repo branch Hperm
             (b :: bs) [] path), Hcat.
  unfold outcome.
  destruct (get_file_content self owner repo path (Some branch)); [|done].
  destruct (decide (path ∈ paths)); done.
Qed.

Section Structure.
Context {C : Type} {cache_ops : RepoCache C}.
Context (self : client) (owner repo : string).

(** Every entry of the file map that [get_repository_structure] builds
    from the remote side is a listed file within the size bound that
    passes the ignore and inclusion filters, under the content its fetch
    returned; the map has no key twice. *)
Theorem returned_files_pass_filters
    (as_completed : list string -> list string) (fuel : nat)
    (branch : option string) (ignore_dirs : option (list string))
    (max_file_size : Z) (include_patterns extensions : option (list string))
    (force_refresh : bool) (batch_size max_workers : Z) (c c' : C)
    (result : Py.dict string) :
  (forall batch, as_completed batch ≡ₚ batch) ->
  cached_files self owner repo branch force_refresh c = None ->
  get_repository_structure self as_completed owner repo fuel branch ignore_dirs
    max_file_size include_patterns extensions force_refresh batch_size
    max_workers c = Some (Py.Ok result, c') ->
  exists b,
    resolve_branch self owner repo branch = Py.Ok b
    /\ Py.wf result
    /\ forall path content,
         Py.get result path = Some content ->
         collectable self owner repo b (default default_ignore_dirs ignore_dirs)
           max_file_size include_patterns extensions path
         /\ get_file_content self owner repo path (Some b) = Py.Ok content.
Proof.
  intros Hperm Hmiss. unfold get_repository_structure. rewrite Hmiss.
  destruct (resolve_branch self owner repo branch) as [b|e]; [|done].
  destruct (collect_file_paths _ _ _ _ _ _ _ _ _ _ _) as [[visited paths]|]
    eqn:Hwalk; [|done].
  apply collect_file_paths_extends in Hwalk as [_ (new & Hnew & Hok)].
  cbn [fst snd app] in Hnew. subst new.
  destruct paths as [|p ps].
  - intros [= <- <-]. exists b. split_and!; [done|apply NoDup_nil_2|done].
  - destruct (fetch_all _ _ _ _ _ _ _ _) as [r|e] eqn:Hfetch; [|done].
    intros [= <- <-]. exists b. split_and!; [done|by eapply fetch_all_wf|].
    intros path content Hget.
    destruct (fetch_all_keys _ _ _ _ _ _ _ _ _ Hperm Hfetch path) as [Hin Hc].
    { by eapply PyFacts.get_Some_keys. }
    rewrite Hget in Hc. split; [|done].
    by apply (proj1 (Forall_forall _ _) Hok).
Qed.

(** A traversal bound that suffices keeps sufficing: with a larger bound
    [get_repository_structure] returns the same result. *)
Theorem traversal_bound_monotone
    (as_completed : list string -> list string) (fuel fuel' : nat)
    (branch : option string) (ignore_dirs : option (list string))
    (max_file_size : Z) (include_patterns extensions : option (list string))
    (force_refresh : bool) (batch_size max_workers : Z) (c : C)
    (r : Py.result (Py.dict string) * C) :
  (fuel <= fuel')%nat ->
  get_repository_structure self as_completed owner repo fuel branch ignore_dirs
    max_file_size include_patterns extensions force_refresh batch_size
    max_workers c = Some r ->
  get_repository_structure self as_completed owner repo fuel' branch ignore_dirs
    max_file_size include_patterns extensions force_refresh batch_size
    max_workers c = Some r.
Proof.
  intros Hle. unfold get_repository_structure.
  destruct (cached_files _ _ _ _ _ _); [done|].
  destruct (resolve_branch self owner repo branch) as [b|e]; [|done].
  destruct (collect_file_paths self owner repo fuel _ _ _ _ _ _ _)
    as [st|] eqn:Hwalk; [|done].
  by rewrite (collect_file_paths_more _ _ _ _ _ _ _ _ _ _ _ _ _ Hle Hwalk).
Qed.

(** A cached file map that is not empty is returned as it is: nothing is
    asked of the remote side (any traversal bound will do, zero too) and
    the cache is left alone. *)
Theorem cache_hit_returns_cached_map
    (as_completed : list string -> list string) (fuel : nat)
    (branch : option string) (ignore_dirs : option (list string))
    (max_file_size : Z) (include_patterns extensions : option (list string))
    (batch_size max_workers : Z) (c : C) (files : Py.dict string) :
  use_cache self = true ->
  get_repo_files c owner repo branch = Some files ->
  files <> [] ->
  get_repository_structure self as_completed owner repo fuel branch ignore_dirs
    max_file_size include_patterns extensions false batch_size
    max_workers c = Some (Py.Ok files, c).
Proof.
  intros Hc Hget Hne. unfold get_repository_structure, cached_files.
  rewrite Hc, Hget. cbn [andb negb].
  destruct files; [congruence|done].
Qed.

(** When the listing of the root raises, the exception is swallowed:
    the result is the empty map, and nothing is written to the cache. *)
Theorem failed_root_listing_gives_empty_map
    (as_completed : list string -> list string) (fuel : nat)
    (branch : option string) (ignore_dirs : option (list string))
    (max_file_size : Z) (include_patterns extensions : option (list string))
    (force_refresh : bool) (batch_size max_workers : Z) (c : C) (b : string) :
  cached_files self owner repo branch force_refresh c = None ->
  resolve_branch self owner repo branch = Py.Ok b ->
  Py.raises (_list_repository_files self owner repo EmptyString (Some b)) ->
  get_repository_structure self as_completed owner repo (S fuel) branch
    ignore_dirs max_file_size include_patterns extensions force_refresh
    batch_size max_workers c = Some (Py.Ok [], c).
Proof.
  intros Hmiss Hb [e He]. unfold get_repository_structure.
  rewrite Hmiss, Hb. rewrite collect_file_paths_step.
  unfold list_repository_files. rewrite He. cbn [Py.try_except].
  by rewrite decide_False by set_solver.
Qed.

(** The cache is written only after a fetch that gave a non-empty map,
    with caching on, and then under the resolved branch; a cache hit, an
    exception and an empty result leave the cache as it was. *)
Theorem cache_written_only_with_files
    (as_completed : list string -> list string) (fuel : nat)
    (branch : option string) (ignore_dirs : option (list string))
    (max_file_size : Z) (include_patterns extensions : option (list string))
    (force_refresh : bool) (batch_size max_workers : Z) (c c' : C)
    (r : Py.result (Py.dict string)) :
  get_repository_structure self as_completed owner repo fuel branch ignore_dirs
    max_file_size include_patterns extensions force_refresh batch_size
    max_workers c = Some (r, c') ->
  c' = c
  \/ exists result b,
       r = Py.Ok result
       /\ result <> []
       /\ use_cache self = true
       /\ cached_files self owner repo branch force_refresh c = None
       /\ resolve_branch self owner repo branch = Py.Ok b
       /\ c' = cache_repo_files c owner repo result (Some b).
Proof.
  unfold get_repository_structure.
  destruct (cached_files _ _ _ _ _ _) eqn:Hmiss; [intros [= <- <-]; by left|].
  destruct (resolve_branch self owner repo branch) as [b|e] eqn:Hb;
    [|intros [= <- <-]; by left].
  destruct (collect_file_paths _ _ _ _ _ _ _ _ _ _ _) as [[visited paths]|];
    [|done].
  destruct paths as [|p ps]; [intros [= <- <-]; by left|].
  destruct (fetch_all _ _ _ _ _ _ _ _) as [result|e];
    [|intros [= <- <-]; by left].
  intros [= <- <-]. unfold cache_result.
  destruct result as [|kv result]; [by left|].
  destruct (use_cache self) eqn:Hc; [|by left].
  right. exists (kv :: result), b. split_and!; done.
Qed.

(** The content of the returned map does not depend on how the fetches
    were scheduled: two runs from the same cache miss with any completion
    orders, batch sizes, worker counts and traversal bounds give maps
    with the same lookups. *)
Theorem fetched_content_is_schedule_independent
    (sched1 sched2 : list string -> list string) (fuel1 fuel2 : nat)
    (branch : option string) (ignore_dirs : option (list string))
    (max_file_size : Z) (include_patterns extensions : option (list string))
    (force_refresh : bool) (batch1 workers1 batch2 workers2 : Z) (c c1 c2 : C)
    (r1 r2 : Py.dict string) :
  (forall batch, sched1 batch ≡ₚ batch) ->
  (forall batch, sched2 batch ≡ₚ batch) ->
  0 < batch1 -> 0 < batch2 ->
  get_repository_structure self sched1 owner repo fuel1 branch ignore_dirs
    max_file_size include_patterns extensions force_refresh batch1
    workers1 c = Some (Py.Ok r1, c1) ->
  get_repository_structure self sched2 owner repo fuel2 branch ignore_dirs
    max_file_size include_patterns extensions force_refresh batch2
    workers2 c = Some (Py.Ok r2, c2) ->
  forall path, Py.get r1 path = Py.get r2 path.
Proof.
  intros Hp1 Hp2 Hb1 Hb2. unfold get_repository_structure.
  destruct (cached_files _ _ _ _ _ _); [by intros [= <- <-] [= <- <-]|].
  destruct (resolve_branch self owner repo branch) as [b|e]; [|done].
  destruct (collect_file_paths self owner repo fuel1 _ _ _ _ _ _ _)
    as [st1|] eqn:Hw1; [|done].
  destruct (collect_file_paths self owner repo fuel2 _ _ _ _ _ _ _)
    as [st2|] eqn:Hw2; [|intros _; done].
  assert (st1 = st2) as <-.
  { apply (collect_file_paths_more _ _ _ _ _ _ _ _ _ (fuel1 `max` fuel2)%nat) in Hw1, Hw2;
      [congruence|lia|lia]. }
  destruct st1 as [visited paths]. destruct paths as [|p ps].
  - by intros [= <- <-] [= <- <-].
  - destruct (fetch_all self sched1 _ _ _ _ _ _) as [res1|] eqn:F1; [|done].
    destruct (fetch_all self sched2 _ _ _ _ _ _) as [res2|] eqn:F2;
      [|intros _; done].
    intros [= <- <-] [= <- <-] path.
    assert (forall sched batch workers res,
              (forall batch, sched batch ≡ₚ batch) -> 0 < batch ->
              fetch_all self sched owner repo b (p :: ps) batch workers = Py.Ok res ->
              Py.get res path = outcome self owner repo b path (path ∈ p :: ps) None)
      as Hget.
    { intros sched batch workers res Hp Hb. unfold fetch_all.
      rewrite (proj2 (Z.eqb_neq _ _)), (proj2 (Z.ltb_ge _ _)) by lia.
      pose proof (batches_concat (length (p :: ps)) (Z.to_nat batch) (p :: ps)
                    ltac:(lia) ltac:(lia)) as Hcat.
      destruct (batches _ _ _) as [|b0 bs]; [done|].
      destruct (workers <=? 0); [done|].
      match goal with
      | |- Py.Ok ?t = _ -> _ => intros Hres; assert (res = t) as -> by congruence
      end.
      by rewrite (fetch_batches_get self sched owner repo b Hp (b0 :: bs) [] path),
        Hcat. }
    by rewrite (Hget _ _ _ _ Hp1 Hb1 F1), (Hget _ _ _ _ Hp2 Hb2 F2).
Qed.

End Structure.

End StructureFacts.

(** ** More on code search and the default branch *)

Module SearchMoreFacts.
Import Remote GithubClientMCP Search SearchFacts.

Lemma search_code_within_default server owner repo query max_results :
  search_code server owner repo query max_results
  = search_code_within (Z.to_nat max_results) server owner repo query max_results.
Proof. reflexivity. Qed.

Lemma contains_prefix a b : PyStr.contains (a +:+ b) a = true.
Proof. apply PyStrFacts.contains_spec. by exists "", b. Qed.

Lemma scoped_query_tagged owner repo query :
  PyStr.contains (scoped_query owner repo query) (repo_tag owner repo) = true.
Proof.
  unfold scoped_query.
  destruct (PyStr.contains query (repo_tag owner repo)) eqn:E; cbn [negb]; [done|].
  apply contains_prefix.
Qed.

(** [search_code] never raises; it returns at most [max_results] items,
    and none at all when [max_results] is not positive. *)
Theorem search_code_is_bounded server owner repo query max_results :
  exists items,
    search_code server owner repo query max_results = Py.Ok items
    /\ (length items <= Z.to_nat max_results)%nat
    /\ (max_results <= 0 -> items = []).
Proof.
  destruct (search_code_returns server owner repo query max_results) as [items H].
  exists items. split_and!; [done| |].
  - destruct (Z_le_gt_dec 0 max_results) as [Hpos|Hneg].
    + by eapply search_code_capped.
    + revert H. unfold search_code. replace (Z.to_nat max_results) with 0%nat by lia.
      cbn [search_code_loop length].
      rewrite (proj2 (Z.ltb_ge _ _)) by lia. cbn. unfold slice_to.
      rewrite take_nil, take_nil. destruct (max_results <? 0); by intros [= <-].
  - intros Hle. revert H. unfold search_code.
    destruct (Z.to_nat max_results) eqn:E; [|lia].
    cbn [search_code_loop length].
    rewrite (proj2 (Z.ltb_ge _ _)) by lia. cbn. unfold slice_to.
    rewrite take_nil, take_nil. destruct (max_results <? 0); by intros [= <-].
Qed.

Lemma search_code_within_enough rounds server owner repo query max_results :
  (Z.to_nat max_results <= rounds)%nat ->
  search_code_within rounds server owner repo query max_results
  = search_code server owner repo query max_results.
Proof.
  intros Hle. rewrite search_code_within_default. unfold search_code_within.
  by rewrite (search_code_loop_fuel server (scoped_query owner repo query)
                (Z.min 100 max_results) max_results rounds
                (Z.to_nat max_results) 1 [])
    by (cbn [length]; lia).
Qed.

(** The loop of [search_code] ends within [max_results] rounds: every
    larger number of rounds gives the same result. *)
Theorem search_code_rounds_suffice rounds server owner repo query max_results :
  (Z.to_nat max_results <= rounds)%nat ->
  search_code_within rounds server owner repo query max_results
  = search_code server owner repo query max_results.
Proof. apply search_code_within_enough. Qed.

(** A query that carries the repository tag is sent as it is, so scoping
    a query twice changes nothing. *)
Theorem search_code_scoping_idempotent server owner repo query max_results :
  search_code server owner repo (scoped_query owner repo query) max_results
  = search_code server owner repo query max_results.
Proof.
  unfold search_code.
  change ("repo:" +:+ owner +:+ "/" +:+ repo) with (repo_tag owner repo).
  rewrite scoped_query_tagged. cbn [negb]. reflexivity.
Qed.

(** When a later page fails, the pages already read are dropped: a first
    page with items that leaves room for more, followed by a request that
    raises, makes [search_code] return the empty list. *)
Theorem search_code_drops_pages_on_failure
    server owner repo query max_results response e :
  tool_search_code server (scoped_query owner repo query) 1
    (Z.min 100 max_results) = Py.Ok response ->
  default [] (cs_items response) <> [] ->
  Z.of_nat (length (default [] (cs_items response)))
    < default 0 (cs_total_count response) ->
  Z.of_nat (length (default [] (cs_items response))) < max_results ->
  tool_search_code server (scoped_query owner repo query) 2
    (Z.min 100 max_results) = Py.Raise e ->
  search_code server owner repo query max_results = Py.Ok [].
Proof.
  intros H1 Hne Htot Hmax H2.
  rewrite <- (search_code_within_enough (S (S (Z.to_nat max_results)))) by lia.
  unfold search_code_within. cbn [search_code_loop length].
  rewrite (proj2 (Z.ltb_lt _ _)) by lia. rewrite H1. cbn [Py.bind].
  destruct (default [] (cs_items response)) as [|it items] eqn:Eit; [done|].
  cbn [app].
  rewrite !Z.geb_leb.
  rewrite (proj2 (Z.leb_gt (default 0 (cs_total_count response)) _)) by lia.
  rewrite (proj2 (Z.leb_gt max_results _)) by lia.
  cbn [orb]. rewrite (proj2 (Z.ltb_lt _ _)) by lia.
  change (1 + 1) with 2. by rewrite H2.
Qed.

(** The MCP client always answers with a branch name that is not empty.
    It is the default branch of the first repository found when the count
    is positive and that name is not empty; when the request raises, the
    count is not positive, no repository is listed or the first has no
    default branch or an empty one, it is ["main"]. *)
Theorem mcp_default_branch_not_empty server owner repo :
  (exists branch,
     _get_default_branch server owner repo = Py.Ok branch /\ branch <> "")
  /\ (forall info first rest branch,
        tool_search_repositories server ("repo:" +:+ owner +:+ "/" +:+ repo)
        = Py.Ok info ->
        0 < default 0 (rs_total_count info) ->
        rs_items info = Some (first :: rest) ->
        rd_default_branch first = Some branch ->
        branch <> "" ->
        _get_default_branch server owner repo = Py.Ok branch)
  /\ (Py.raises
        (tool_search_repositories server ("repo:" +:+ owner +:+ "/" +:+ repo)) ->
      _get_default_branch server owner repo = Py.Ok "main")
  /\ (forall info,
        tool_search_repositories server ("repo:" +:+ owner +:+ "/" +:+ repo)
        = Py.Ok info ->
        default 0 (rs_total_count info) <= 0
        \/ default [] (rs_items info) = []
        \/ (exists first rest,
              rs_items info = Some (first :: rest)
              /\ (rd_default_branch first = None
                  \/ rd_default_branch first = Some "")) ->
        _get_default_branch server owner repo = Py.Ok "main").
Proof.
  split_and!.
  - unfold _get_default_branch, default_branch_lookup.
    destruct (tool_search_repositories server _) as [info|e];
      cbn [Py.bind Py.try_except]; [|by exists "main"].
    destruct (default 0 (rs_total_count info) >? 0); [|by exists "main"].
    destruct (rs_items info) as [[|first rest]|]; simpl;
      [by exists "main"| |by exists "main"].
    destruct (rd_default_branch first) as [b|]; simpl; [|by exists "main"].
    destruct (String.eqb b "") eqn:Hempty; simpl; [by exists "main"|].
    exists b. split; [done|by apply String.eqb_neq].
  - intros info first rest branch Hinfo Hcount Hitems Hbranch Hne.
    unfold _get_default_branch, default_branch_lookup.
    rewrite Hinfo. cbn [Py.bind].
    rewrite (proj2 (Z.gtb_lt _ _)) by lia.
    rewrite Hitems. simpl. rewrite Hbranch. simpl.
    by rewrite (proj2 (String.eqb_neq _ _) Hne).
  - intros [e He]. unfold _get_default_branch, default_branch_lookup.
    by rewrite He.
  - intros info Hinfo Hcase.
    unfold _get_default_branch, default_branch_lookup.
    rewrite Hinfo. cbn [Py.bind].
    destruct (default 0 (rs_total_count info) >? 0) eqn:Hcount; [|done].
    apply Z.gtb_lt in Hcount.
    destruct Hcase as [Hle|[Hnil|(first & rest & Hitems & Hbranch)]]; [lia| |].
    + by rewrite Hnil.
    + rewrite Hitems. simpl. by destruct Hbranch as [->| ->].
Qed.

End SearchMoreFacts.

(** ** Paths and search phrases *)

Module PathFacts.
Import PyStr GithubClientMCP.

Local Abbreviation one c := (String c EmptyString).

Lemma contains_one_nil c : contains "" (one c) = false.
Proof. reflexivity. Qed.

Lemma contains_one_cons a s c :
  contains (String a s) (one c) = Ascii.eqb c a || contains s (one c).
Proof. cbn [contains startswith]. by rewrite andb_true_r. Qed.

Lemma contains_one_app s1 s2 c :
  contains (s1 +:+ s2) (one c) = contains s1 (one c) || contains s2 (one c).
Proof.
  induction s1 as [|a s1 IH]; [done|].
  change (String a s1 +:+ s2) with (String a (s1 +:+ s2)).
  by rewrite !contains_one_cons, IH, orb_assoc.
Qed.

Lemma contains_one_take n s c :
  contains s (one c) = false -> contains (take n s) (one c) = false.
Proof.
  revert s. induction n as [|n IH]; intros [|a s]; try done.
  cbn [take]. rewrite !contains_one_cons, !orb_false_iff.
  intros [? ?]. auto.
Qed.

Lemma contains_one_drop n s c :
  contains s (one c) = false -> contains (drop n s) (one c) = false.
Proof.
  revert s. induction n as [|n IH]; intros [|a s]; try done.
  cbn [drop]. rewrite contains_one_cons, orb_false_iff. intros [? ?]. auto.
Qed.

(** [rfind] finds the last occurrence: nothing after it is the character. *)
Lemma rfind_from_last c :
  forall s i last,
    last < i ->
    last <= rfind_from s c i last
    /\ contains (drop (Z.to_nat (rfind_from s c i last + 1 - i)) s) (one c) = false.
Proof.
  induction s as [|a s IH]; intros i last Hlt; cbn [rfind_from].
  - split; [lia|]. by destruct (Z.to_nat _).
  - destruct (IH (i + 1) (if Ascii.eqb a c then i else last)) as [Hle Hno].
    { destruct (Ascii.eqb a c); lia. }
    set (r := rfind_from s c (i + 1) (if Ascii.eqb a c then i else last)) in *.
    split; [destruct (Ascii.eqb a c); lia|].
    destruct (Z_lt_ge_dec r i) as [Hr|Hr].
    + replace (Z.to_nat (r + 1 - i)) with 0%nat by lia.
      replace (Z.to_nat (r + 1 - (i + 1))) with 0%nat in Hno by lia.
      cbn [drop] in *. rewrite contains_one_cons, Hno, orb_false_r.
      destruct (Ascii.eqb a c) eqn:E; [lia|].
      rewrite Ascii.eqb_sym. done.
    + replace (Z.to_nat (r + 1 - i)) with (S (Z.to_nat (r + 1 - (i + 1)))) by lia.
      done.
Qed.

Lemma basename_no_sep p : contains (basename p) (one sep) = false.
Proof.
  unfold basename, rfind.
  destruct (rfind_from_last sep p 0 (-1) ltac:(lia)) as [_ H].
  by rewrite Z.sub_0_r in H.
Qed.

Lemma splitext_name_no_sep f :
  contains f (one sep) = false -> contains (splitext f).1 (one sep) = false.
Proof.
  intros H. unfold splitext. destruct (_ && _); cbn [fst]; [|done].
  by apply contains_one_take.
Qed.

Lemma quoted_no_sep s :
  contains s (one sep) = false -> contains (quoted s) (one sep) = false.
Proof.
  intros H. unfold quoted. by rewrite !contains_one_app, H.
Qed.

Lemma basename_is_suffix p : suffix_of (basename p) p.
Proof.
  unfold basename. exists (take (Z.to_nat (rfind p sep + 1)) p).
  by rewrite PyStrFacts.str_take_drop.
Qed.

Lemma backlink_queries_no_sep filepath query :
  query ∈ backlink_queries filepath -> contains query "/" = false.
Proof.
  unfold backlink_queries.
  pose proof (basename_no_sep filepath) as Hbase.
  pose proof (splitext_name_no_sep _ Hbase) as Hname.
  destruct (splitext (basename filepath)) as [name ext]. cbn [fst] in Hname.
  assert (forall m, contains m (one sep) = false ->
                    query ∈ [quoted (basename filepath); quoted ("import " +:+ m);
                             quoted ("from " +:+ m)] ->
                    contains query "/" = false) as Hthree.
  { intros m Hm Hin.
    apply elem_of_cons in Hin as [->|Hin]; [by apply quoted_no_sep|].
    apply elem_of_cons in Hin as [->|Hin].
    { apply quoted_no_sep. by rewrite contains_one_app, Hm. }
    apply list_elem_of_singleton in Hin as ->.
    apply quoted_no_sep. by rewrite contains_one_app, Hm. }
  destruct (String.eqb ext ".py").
  - cbn [app]. destruct (String.eqb name "__init__").
    + destruct (Py.truthy_str _).
      * apply (Hthree _ (basename_no_sep _)).
      * apply (Hthree name Hname).
    + apply (Hthree name Hname).
  - intros Hin. apply list_elem_of_singleton in Hin as ->.
    by apply quoted_no_sep.
Qed.

(** The search phrases of [search_references] are built from bare names.
    The first one is the quoted last component of the path, which is a
    suffix of the path; and no phrase holds a [/], whatever directory the
    file is in. *)
Theorem backlink_queries_use_bare_names filepath :
  (exists rest, backlink_queries filepath = quoted (basename filepath) :: rest)
  /\ suffix_of (basename filepath) filepath
  /\ (forall query,
        query ∈ backlink_queries filepath -> contains query "/" = false).
Proof.
  split_and!.
  - unfold backlink_queries. destruct (splitext _) as [name ext].
    destruct (String.eqb ext ".py"); cbn [app]; eauto.
  - apply basename_is_suffix.
  - apply backlink_queries_no_sep.
Qed.

End PathFacts.

Module FilterMoreFacts.
Import PyStr GithubClientBase FilterFacts.

Lemma any_in_app path l1 l2 : any_in path (l1 ++ l2) = any_in path l1 || any_in path l2.
Proof. unfold any_in. apply existsb_app. Qed.

(** Include patterns only ever add paths: a path that is included stays
    included when more patterns are given, and without an extension
    allow-list the patterns have no effect at all. *)
Theorem include_patterns_only_widen
    (extensions : option (list string)) (patterns more : list string)
    (other : option (list string)) (path : string) :
  (should_include_file extensions (Some patterns) path = true ->
   should_include_file extensions (Some (patterns ++ more)) path = true)
  /\ (Py.truthy_list extensions = false ->
      should_include_file extensions (Some patterns) path
      = should_include_file extensions other path).
Proof.
  unfold should_include_file. split.
  - destruct (Py.truthy_list extensions); [|done].
    destruct (negb _); [|done].
    destruct patterns as [|p ps]; [done|].
    cbn [Py.truthy_list default app andb from_option id].
    change (p :: ps ++ more) with ((p :: ps) ++ more).
    rewrite any_in_app. by destruct (any_in path (p :: ps)).
  - by intros ->.
Qed.

End FilterMoreFacts.

(** ** More on [analyze_repository] *)

Module AnalyzerMoreFacts.
Import Cache SectionAnalyzer AnalyzerFacts.

(** *** Dictionaries built from pairs *)

Lemma set_fresh {V} k (v : V) d : k ∉ Py.keys d -> Py.set k v d = d ++ [(k, v)].
Proof.
  induction d as [|[k' v'] d IH]; [done|].
  cbn [Py.set Py.keys fmap list_fmap fst]. rewrite not_elem_of_cons.
  intros [Hne Hnin]. destruct (String.eqb k' k) eqn:E.
  - apply String.eqb_eq in E. congruence.
  - cbn [app]. f_equal. by apply IH.
Qed.

Lemma fold_set_fresh {V} (l d : list (string * V)) :
  NoDup (Py.keys d ++ l.*1) ->
  fold_left (fun d kv => Py.set kv.1 kv.2 d) l d = d ++ l.
Proof.
  revert d. induction l as [|[k v] l IH]; intros d Hnd; cbn [fold_left].
  - by rewrite app_nil_r.
  - cbn [fmap list_fmap fst snd] in *.
    apply NoDup_app in Hnd as (Hd & Hdisj & Hl).
    apply NoDup_cons in Hl as [Hk Hl].
    rewrite set_fresh.
    + rewrite IH; [by rewrite <- app_assoc|].
      unfold Py.keys. rewrite fmap_app. cbn [fmap list_fmap fst].
      rewrite <- app_assoc. cbn [app].
      apply NoDup_app. split_and!; [done| |by apply NoDup_cons].
      intros x Hx. by apply Hdisj.
    + intros Hin. apply (Hdisj k Hin). apply list_elem_of_here.
Qed.

Lemma of_pairs_nodup {V} (l : list (string * V)) : NoDup l.*1 -> Py.of_pairs l = l.
Proof. intros H. unfold Py.of_pairs. by rewrite fold_set_fresh. Qed.

Lemma length_set_le {V} k (v : V) d : (length (Py.set k v d) <= S (length d))%nat.
Proof.
  induction d as [|[k' v'] d IH]; simpl; [lia|].
  destruct (String.eqb k' k); simpl; lia.
Qed.

Lemma length_of_pairs {V} (l : list (string * V)) :
  (length (Py.of_pairs l) <= length l)%nat.
Proof.
  unfold Py.of_pairs.
  assert (forall d : list (string * V),
            (length (fold_left (fun d kv => Py.set kv.1 kv.2 d) l d)
             <= length d + length l)%nat) as H.
  { induction l as [|kv l IH]; intros d; cbn [fold_left length]; [lia|].
    etrans; [apply IH|]. pose proof (length_set_le kv.1 kv.2 d). lia. }
  apply (H []).
Qed.



(** *** The refinement loop of the enhanced hybrid branch *)

(** What one structural section contributes to the refined list. *)
Lemma refine_large_sections_cons P max_section_size dependencies
    (section_name : string) (files : Py.dict string) (rest : list section) :
  refine_large_sections P max_section_size dependencies
    ((section_name, files) :: rest)
  = if Z.of_nat (length files) >? max_section_size then
      (map (fun '(subsection_name, subsection_files) =>
              (section_name +:+ "/" +:+ subsection_name, subsection_files))
           (_group_by_dependencies P files
              (section_deps_of dependencies files) max_section_size)
         ++ (refine_large_sections P max_section_size dependencies rest).1,
       CallGroupByDependencies
         :: (refine_large_sections P max_section_size dependencies rest).2)
    else
      ((section_name, files)
         :: (refine_large_sections P max_section_size dependencies rest).1,
       (refine_large_sections P max_section_size dependencies rest).2).
Proof.
  unfold refine_large_sections.
  match goal with |- context [fold_left ?f _ _] => set (step := f) end.
  assert (forall acc called x,
            step (acc, called) x
            = (acc ++ (step ([], []) x).1, called ++ (step ([], []) x).2)) as Hstep.
  { intros acc called [n fs]. unfold step.
    destruct (Z.of_nat (length fs) >? max_section_size); cbn [fst snd app].
    all: by rewrite ?app_nil_r. }
  assert (forall l acc called,
            fold_left step l (acc, called)
            = (acc ++ (fold_left step l ([], [])).1,
               called ++ (fold_left step l ([], [])).2)) as Hacc.
  { induction l as [|x l IH]; intros acc called; cbn [fold_left].
    - by rewrite !app_nil_r.
    - rewrite Hstep. destruct (step ([], []) x) as [dx cx]. cbn [fst snd].
      rewrite IH, (IH dx cx). cbn [fst snd]. by rewrite !app_assoc. }
  cbn [fold_left]. rewrite Hacc. unfold step at 1 2. cbn beta iota.
  by destruct (Z.of_nat (length files) >? max_section_size).
Qed.

(** Enhanced hybrid analysis leaves the structural sections alone when
    none of them is over the bound: the result is the structural one, and
    [_group_by_dependencies] is not called. *)
Theorem hybrid_keeps_small_sections P (self : analyzer)
    (repo_files : Py.dict string) (max_section_size : Z)
    (owner repo branch : option string) :
  has_code_search self = true ->
  Py.truthy_str owner = true ->
  Py.truthy_str repo = true ->
  Forall (fun s : section => Z.of_nat (length s.2) <= max_section_size)
         (structural_analysis P repo_files max_section_size) ->
  select_analysis P self repo_files HYBRID max_section_size owner repo branch
  = (structural_analysis P repo_files max_section_size,
     [CallStructural; CallExtractEnhancedDependencies]).
Proof.
  intros Hflag Ho Hr Hsmall. unfold select_analysis.
  rewrite Hflag, Ho, Hr. cbn [andb].
  set (deps := _extract_enhanced_dependencies P repo_files _ _).
  assert (refine_large_sections P max_section_size deps
            (structural_analysis P repo_files max_section_size)
          = (structural_analysis P repo_files max_section_size, [])) as ->; [|done].
  induction Hsmall as [|[n fs] rest Hfs Hrest IH]; [done|].
  rewrite refine_large_sections_cons, IH. cbn [snd] in Hfs.
  rewrite Z.gtb_ltb. by rewrite (proj2 (Z.ltb_ge _ _)) by lia.
Qed.

(** Where the sections of the enhanced hybrid branch come from: a
    structural section within the bound is kept as it is, and one over the
    bound is replaced by the groups that [_group_by_dependencies] makes of
    its files, each named [parent/group]; the method is called once for
    every section over the bound. *)
Theorem refined_sections_come_from_structure P (max_section_size : Z)
    (dependencies : Py.dict (gset string)) (structural : list section)
    (section_name : string) (files : Py.dict string) :
  ((section_name, files)
     ∈ (refine_large_sections P max_section_size dependencies structural).1
   <->
   ((section_name, files) ∈ structural
    /\ Z.of_nat (length files) <= max_section_size)
   \/ exists parent parent_files group,
        (parent, parent_files) ∈ structural
        /\ max_section_size < Z.of_nat (length parent_files)
        /\ (group, files)
             ∈ _group_by_dependencies P parent_files
                 (section_deps_of dependencies parent_files) max_section_size
        /\ section_name = parent +:+ "/" +:+ group)
  /\ (refine_large_sections P max_section_size dependencies structural).2
     = replicate
         (length (filter (fun s : section =>
                            max_section_size < Z.of_nat (length s.2))
                         structural))
         CallGroupByDependencies.
Proof.
  induction structural as [|[n fs] rest [IHin IHcalls]].
  - split; [|done]. cbn. split.
    + intros H. by apply elem_of_nil in H.
    + intros [[H _]|(p & pf & g & H & _)]; by apply elem_of_nil in H.
  - rewrite refine_large_sections_cons, filter_cons. cbn [snd].
    destruct (Z.of_nat (length fs) >? max_section_size) eqn:E; cbn [fst snd].
    + rewrite Z.gtb_ltb in E. apply Z.ltb_lt in E.
      rewrite decide_True by done. cbn [length replicate]. split; [|by f_equal].
      rewrite elem_of_app, IHin, list_elem_of_fmap. split.
      * intros [([g gf] & [= -> ->] & Hg)|[[Hin Hle]|(p & pf & g & Hin & Hrest)]].
        -- right. exists n, fs, g. split_and!; [apply list_elem_of_here|done|done|done].
        -- left. split; [by apply list_elem_of_further|done].
        -- right. exists p, pf, g. split; [by apply list_elem_of_further|done].
      * intros [[Hin Hle]|(p & pf & g & Hin & Hlt & Hg & ->)].
        -- apply elem_of_cons in Hin as [[= -> ->]|Hin]; [lia|].
           right. left. done.
        -- apply elem_of_cons in Hin as [[= -> ->]|Hin].
           ++ left. by exists (g, files).
           ++ right. right. exists p, pf, g. done.
    + rewrite Z.gtb_ltb in E. apply Z.ltb_ge in E.
      rewrite decide_False by lia. split; [|done].
      rewrite elem_of_cons, IHin. split.
      * intros [[= -> ->]|[[Hin Hle]|(p & pf & g & Hin & Hrest)]].
        -- left. split; [apply list_elem_of_here|done].
        -- left. split; [by apply list_elem_of_further|done].
        -- right. exists p, pf, g. split; [by apply list_elem_of_further|done].
      * intros [[Hin Hle]|(p & pf & g & Hin & Hlt & Hg & ->)].
        -- apply elem_of_cons in Hin as [[= -> ->]|Hin]; [by left|].
           right. left. done.
        -- apply elem_of_cons in Hin as [[= -> ->]|Hin]; [lia|].
           right. right. exists p, pf, g. done.
Qed.

(** The enhanced methods are called only when the analyzer has the
    search capability and both an owner and a repository name; the
    structural method is called alone whatever the capability. *)
Theorem enhanced_methods_need_capability P (self : analyzer)
    (repo_files : Py.dict string) (method : AnalysisMethod)
    (max_section_size : Z) (owner repo branch : option string) (k : call) :
  (k ∈ (select_analysis P self repo_files method max_section_size
          owner repo branch).2 ->
   k = CallEnhancedDependency \/ k = CallExtractEnhancedDependencies
   \/ k = CallGroupByDependencies ->
   has_code_search self = true
   /\ Py.truthy_str owner = true /\ Py.truthy_str repo = true
   /\ method <> STRUCTURAL)
  /\ (method = STRUCTURAL ->
      select_analysis P self repo_files method max_section_size owner repo branch
      = (structural_analysis P repo_files max_section_size, [CallStructural])).
Proof.
  split; [|by intros ->].
  unfold select_analysis.
  destruct (has_code_search self), (Py.truthy_str owner), (Py.truthy_str repo),
    method; cbn [andb snd];
    try (intros Hin%list_elem_of_singleton [ -> | [ -> | -> ] ]; discriminate).
  all: done.
Qed.

Section Runs.
Context {C : Type} {cache_ops : RepoCache C}.
Context (P : Strategies) (self : analyzer).

(** An analyzer without caching neither reads nor writes the cache: the
    sections and the methods called are the same from any two states,
    and the cache stays as it was. *)
Theorem analysis_without_cache_ignores_store
    (repo_files : Py.dict string) (method : AnalysisMethod)
    (max_section_size min_section_size : Z) (owner repo branch : option string)
    (st1 st2 : state C) :
  use_cache self = false ->
  (analyze_repository P self repo_files method max_section_size
     min_section_size owner repo branch st1).1
  = (analyze_repository P self repo_files method max_section_size
       min_section_size owner repo branch st2).1
  /\ cache (analyze_repository P self repo_files method max_section_size
             min_section_size owner repo branch st1).2
     = cache st1
  /\ exists called,
       calls (analyze_repository P self repo_files method max_section_size
                min_section_size owner repo branch st1).2
       = calls st1 ++ called
       /\ calls (analyze_repository P self repo_files method max_section_size
                   min_section_size owner repo branch st2).2
          = calls st2 ++ called.
Proof.
  intros Hoff. unfold analyze_repository, cached_structure_sections, cache_sections.
  rewrite Hoff. cbn [andb].
  destruct (select_analysis _ _ _ _ _ _ _ _) as [sections called].
  destruct (min_section_size >? 1); cbn [fst snd cache calls]; eauto.
Qed.

(** A stored structure is not replayed once the file set has changed: if
    some path is in the file map and not in the recorded file list, or the
    other way round, the run goes on to the chosen method. *)
Theorem changed_file_set_is_not_replayed
    (repo_files : Py.dict string) (method : AnalysisMethod)
    (owner repo branch : option string) (c : C) (s : structure) (path : string) :
  get_repo_structure c (default EmptyString owner) (default EmptyString repo)
    branch = Some s ->
  (path ∈ Py.keys repo_files /\ (path ∉ default [] (st_files s)))
  \/ ((path ∉ Py.keys repo_files) /\ path ∈ default [] (st_files s)) ->
  cached_structure_sections self repo_files method owner repo branch c = None.
Proof.
  intros Hget Hdiff. unfold cached_structure_sections.
  destruct (_ && _); [|done]. rewrite Hget.
  destruct (structure_truthy s); [|done].
  destruct (same_file_set repo_files s) eqn:E; [|done].
  exfalso. pose proof (proj1 (same_file_set_spec repo_files s) E path) as H.
  destruct Hdiff as [[H1 H2]|[H1 H2]]; tauto.
Qed.

End Runs.

(** A replay keeps the stored order and gives no empty section: the
    names returned are a sublist of the stored names, and every returned
    section holds a file. *)
Theorem replay_keeps_order_and_drops_empty
    (repo_files : Py.dict string) (cached_sections : Py.dict (list string)) :
  sublist (cached_sections_of repo_files cached_sections).*1 cached_sections.*1
  /\ Forall (fun s : section => s.2 <> [])
            (cached_sections_of repo_files cached_sections).
Proof.
  unfold cached_sections_of.
  match goal with |- context [fold_left ?f _ _] => set (step := f) end.
  assert (forall l acc,
            exists kept,
              fold_left step l acc = acc ++ kept
              /\ sublist kept.*1 l.*1
              /\ Forall (fun s : section => s.2 <> []) kept) as H.
  { induction l as [|[n ps] l IH]; intros acc; cbn [fold_left].
    - exists []. by rewrite app_nil_r.
    - unfold step at 2. cbn beta iota.
      destruct (section_files_of repo_files ps) as [|kv fs] eqn:E.
      + destruct (IH acc) as (kept & -> & Hsub & Hne).
        exists kept. split_and!; [done|by apply sublist_cons|done].
      + destruct (IH (acc ++ [(n, kv :: fs)])) as (kept & -> & Hsub & Hne).
        exists ((n, kv :: fs) :: kept). split_and!.
        * by rewrite <- app_assoc.
        * by apply sublist_skip.
        * by constructor. }
  destruct (H cached_sections []) as (kept & -> & Hsub & Hne). done.
Qed.

(** The metadata of a run counts every returned section, while its size
    table has one entry per section name: never more entries than
    sections, and exactly the sections in order, each with its number of
    files, when the names are distinct. The other entries of the stored
    metadata are kept. *)
Theorem metadata_counts_sections
    (sections : list section) (method : AnalysisMethod) (stored : option metadata) :
  md_section_count (metadata_of sections method stored) = Some (length sections)
  /\ md_section_method (metadata_of sections method stored) = Some (name method)
  /\ (exists sizes,
        md_sections (metadata_of sections method stored) = Some sizes
        /\ Py.wf sizes
        /\ (length sizes <= length sections)%nat
        /\ (NoDup sections.*1 ->
            sizes = map (fun s : section => (s.1, length s.2)) sections))
  /\ md_rest (metadata_of sections method stored)
     = md_rest (default empty_metadata stored).
Proof.
  split_and!; [done|done| |].
  - exists (section_sizes sections). split; [done|]. unfold section_sizes.
    assert (map (fun '(section_name, files) => (section_name, length files)) sections
            = map (fun s : section => (s.1, length s.2)) sections) as ->.
    { apply map_ext. by intros [n fs]. }
    split_and!; [apply PyFacts.wf_of_pairs| |].
    + etrans; [apply length_of_pairs|]. by rewrite length_map.
    + intros Hnd. apply of_pairs_nodup.
      rewrite <- list_fmap_compose.
      assert ((fst ∘ (fun s : section => (s.1, length s.2))) <$> sections
              = sections.*1) as ->; [|done].
      by apply list_fmap_ext.
  - unfold metadata_of. destruct stored as [m|]; [|done].
    cbn [default from_option id md_rest].
    destruct (metadata_truthy m) eqn:E; [done|].
    unfold metadata_truthy in E.
    by destruct (md_section_count m), (md_section_method m), (md_sections m),
      (md_rest m).
Qed.

End AnalyzerMoreFacts.

(** ** Repository statistics *)

Module StatsFacts.
Import Remote Stats.

(** [get_repository_stats] of the MCP client never raises, and it agrees
    with [_get_default_branch]: the branch that the client resolves is the
    default branch of the statistics when they are there and name one, and
    ["main"] otherwise. *)
Theorem stats_agree_with_default_branch
    (server : McpServer)
    (search_repositories : string -> Py.result repo_details_search)
    (owner repo : string) :
  exists found,
    get_repository_stats search_repositories owner repo = Py.Ok found
    /\ GithubClientMCP._get_default_branch
         (with_repositories server search_repositories) owner repo
       = Py.Ok (match found with
                | Some s =>
                    if Py.truthy_str (default_branch s)
                    then default EmptyString (default_branch s)
                    else "main"
                | None => "main"
                end)
    /\ (Py.raises (search_repositories ("repo:" +:+ owner +:+ "/" +:+ repo)) ->
        found = None).
Proof.
  unfold get_repository_stats, GithubClientMCP._get_default_branch,
    GithubClientMCP.default_branch_lookup, with_repositories.
  cbn [tool_search_repositories].
  destruct (search_repositories _) as [info|e]; cbn [Py.bind Py.try_except];
    [|eexists; split_and!; done].
  unfold as_repo_search. cbn [rs_total_count rs_items].
  destruct (default 0 (rds_total_count info) >? 0);
    [|eexists; split_and!; [done|done|by intros [? ?]]].
  destruct (rds_items info) as [[|d ds]|]; simpl;
    [eexists; split_and!; [done|done|by intros [? ?]]|
    |eexists; split_and!; [done|done|by intros [? ?]]].
  eexists. split_and!; [done| |by intros [? ?]]. cbn [default_branch].
  destruct (rp_default_branch d) as [b|]; simpl; [|done].
  by destruct (String.eqb b "").
Qed.

End StatsFacts.

(** ** Worked instances *)

Module MoreWitnesses.
Import Remote Cache GithubClientBase Traversal SpecModel.

Lemma returned_files_pass_filters_witness :
  exists b,
    resolve_branch Sample.mcp_client "o" "r" None = Py.Ok b
    /\ Py.wf Examples.fetched_reversed
    /\ forall path content,
         Py.get Examples.fetched_reversed path = Some content ->
         collectable Sample.mcp_client "o" "r" b default_ignore_dirs 500000
           None None path
         /\ get_file_content Sample.mcp_client "o" "r" path (Some b)
            = Py.Ok content.
Proof.
  apply (StructureFacts.returned_files_pass_filters
           (cache_ops := memory_cache) Sample.mcp_client "o" "r" reverse 2 None
           None 500000 None None false 10 5 empty_store empty_store
           Examples.fetched_reversed).
  - intros batch. apply reverse_Permutation.
  - reflexivity.
  - vm_compute. reflexivity.
Defined.

Lemma cache_hit_returns_cached_map_witness :
  get_repository_structure (cache_ops := memory_cache) Examples.caching_client
    reverse "o" "r" 0 None None 500000 None None false 10 5
    Examples.store_with_files
  = Some (Py.Ok Sample.files, Examples.store_with_files).
Proof.
  apply (StructureFacts.cache_hit_returns_cached_map
           (cache_ops := memory_cache) Examples.caching_client "o" "r").
  - reflexivity.
  - reflexivity.
  - discriminate.
Defined.

Lemma failed_root_listing_gives_empty_map_witness :
  get_repository_structure (cache_ops := memory_cache) Examples.unreachable_client
    reverse "o" "r" 1 (Some "main") None 500000 None None false 10 5 empty_store
  = Some (Py.Ok [], empty_store).
Proof.
  apply (StructureFacts.failed_root_listing_gives_empty_map
           (cache_ops := memory_cache) Examples.unreachable_client "o" "r"
           reverse 0 (Some "main") None 500000 None None false 10 5 empty_store
           "main").
  - reflexivity.
  - reflexivity.
  - eexists. reflexivity.
Defined.

Lemma cache_written_only_with_files_witness :
  cache_repo_files empty_store "o" "r" Examples.fetched_reversed (Some "develop")
  = empty_store
  \/ exists result b,
       Py.Ok Examples.fetched_reversed = Py.Ok result
       /\ result <> []
       /\ use_cache Examples.caching_client = true
       /\ cached_files Examples.caching_client "o" "r" None false empty_store = None
       /\ resolve_branch Examples.caching_client "o" "r" None = Py.Ok b
       /\ cache_repo_files empty_store "o" "r" Examples.fetched_reversed
            (Some "develop")
          = cache_repo_files empty_store "o" "r" result (Some b).
Proof.
  apply (StructureFacts.cache_written_only_with_files
           (cache_ops := memory_cache) Examples.caching_client "o" "r" reverse 2
           None None 500000 None None false 10 5 empty_store).
  vm_compute. reflexivity.
Defined.

Lemma fetched_content_is_schedule_independent_witness :
  Py.get Examples.fetched_reversed "a.py" = Py.get Examples.fetched_in_order "a.py"
  /\ Py.get Examples.fetched_reversed "c.py" = Py.get Examples.fetched_in_order "c.py".
Proof.
  assert (forall batch : list string, reverse batch ≡ₚ batch) as Hrev
    by (intros batch; apply reverse_Permutation).
  split;
    apply (StructureFacts.fetched_content_is_schedule_independent
             (cache_ops := memory_cache) Sample.mcp_client "o" "r"
             reverse (fun batch => batch) 2 5 None None 500000 None None false
             10 5 2 1 empty_store empty_store empty_store
             Examples.fetched_reversed Examples.fetched_in_order
             Hrev (fun batch => Permutation_refl batch)
             ltac:(lia) ltac:(lia)
             ltac:(vm_compute; reflexivity) ltac:(vm_compute; reflexivity)).
Defined.

Lemma mcp_default_branch_not_empty_witness :
  GithubClientMCP._get_default_branch Sample.server "o" "r" = Py.Ok "develop".
Proof.
  apply (proj1 (proj2 (SearchMoreFacts.mcp_default_branch_not_empty
                         Sample.server "o" "r"))
           {| Remote.rs_total_count := Some 1;
              Remote.rs_items :=
                Some [{| Remote.rd_default_branch := Some "develop" |}] |}
           {| Remote.rd_default_branch := Some "develop" |} []).
  - reflexivity.
  - simpl. lia.
  - reflexivity.
  - reflexivity.
  - discriminate.
Defined.

Lemma search_code_rounds_suffice_witness :
  Search.search_code_within 500 Sample.server "o" "r" "import mod" 100
  = GithubClientMCP.search_code Sample.server "o" "r" "import mod" 100.
Proof.
  apply SearchMoreFacts.search_code_rounds_suffice. vm_compute. lia.
Defined.

Lemma search_code_drops_pages_on_failure_witness :
  GithubClientMCP.search_code Examples.paging_server "o" "r" "import mod" 100
  = Py.Ok [].
Proof.
  apply (SearchMoreFacts.search_code_drops_pages_on_failure
           Examples.paging_server "o" "r" "import mod" 100 Examples.first_page
           (Py.Exception "rate limit exceeded")).
  - reflexivity.
  - discriminate.
  - vm_compute. reflexivity.
  - vm_compute. reflexivity.
  - reflexivity.
Defined.


Lemma hybrid_keeps_small_sections_witness :
  SectionAnalyzer.select_analysis Sample.strategies Examples.capable_analyzer
    Sample.files SectionAnalyzer.HYBRID 15 (Some "o") (Some "r") None
  = (SectionAnalyzer.structural_analysis Sample.strategies Sample.files 15,
     [SectionAnalyzer.CallStructural;
      SectionAnalyzer.CallExtractEnhancedDependencies]).
Proof.
  apply AnalyzerMoreFacts.hybrid_keeps_small_sections.
  - reflexivity.
  - reflexivity.
  - reflexivity.
  - repeat constructor. vm_compute. discriminate.
Defined.

Lemma analysis_without_cache_ignores_store_witness :
  (SectionAnalyzer.analyze_repository Sample.per_file Sample.plain_analyzer
     Sample.five_files SectionAnalyzer.DEPENDENCY 15 2 (Some "o") (Some "r") None
     (Sample.start Sample.stored)).1
  = (SectionAnalyzer.analyze_repository Sample.per_file Sample.plain_analyzer
       Sample.five_files SectionAnalyzer.DEPENDENCY 15 2 (Some "o") (Some "r")
       None (Sample.start empty_store)).1.
Proof.
  apply (AnalyzerMoreFacts.analysis_without_cache_ignores_store
           (cache_ops := memory_cache) Sample.per_file Sample.plain_analyzer).
  reflexivity.
Defined.

Lemma changed_file_set_is_not_replayed_witness :
  SectionAnalyzer.cached_structure_sections (cache_ops := memory_cache)
    Sample.caching_analyzer Sample.five_files SectionAnalyzer.DEPENDENCY
    (Some "o") (Some "r") None Sample.stored
  = None.
Proof.
  apply (AnalyzerMoreFacts.changed_file_set_is_not_replayed
           (cache_ops := memory_cache) Sample.caching_analyzer Sample.five_files
           SectionAnalyzer.DEPENDENCY (Some "o") (Some "r") None Sample.stored
           Sample.stored_structure "c.py").
  - reflexivity.
  - left. split.
    + apply (bool_decide_unpack ("c.py" ∈ ["a.py"; "b.py"; "c.py"; "d.py"; "e.py"])).
      vm_compute. exact I.
    + apply (bool_decide_unpack ("c.py" ∉ ["b.py"; "a.py"])).
      vm_compute. exact I.
Defined.

End MoreWitnesses.
